(** * PA-Broker: the credential lifecycle of the Google API gateway

    A shallow embedding of the two application files of the repository,
    [src/App.py] (module [App1] below) and [src/app.py] (module [App2]),
    and the properties of their credential handling.

    Both files are Flask applications.  Their handlers read and write one
    token file, read the clock and call remote HTTP endpoints.  Here these
    effects are explicit: a handler is a function from a [world] (the token
    file, the clock, the log of outgoing HTTP calls) to a result, which is
    a value or a raised Python exception, and the world it leaves behind.
    The remote side is an oracle that answers every outgoing call. *)

From stdpp Require Import gmap strings list fin_maps pretty.
From Stdlib Require Import ZArith Ascii String Lia.

Local Open Scope Z_scope.
Local Open Scope string_scope.

(** ** Python values *)

(** The values [json.load] and [Response.json] produce, which are also the
    values the token dictionary holds.  [None] is [JNull].  Numbers are the
    integers; fractional JSON numbers are not part of the model.  Nested
    objects keep their key order, as Python dictionaries do. *)
#[warnings="-register-all"]
Inductive json : Type :=
  | JNull
  | JBool (b : bool)
  | JInt (z : Z)
  | JStr (s : string)
  | JArr (l : list json)
  | JObj (l : list (string * json)).

(** A token dictionary: the top-level JSON object of the token file and of
    a token endpoint response. *)
Abbreviation dict := (gmap string json).

(** Python truthiness: what [if v] and [not v] test. *)
Definition truthy (v : json) : bool :=
  match v with
  | JNull => false
  | JBool b => b
  | JInt z => negb (Z.eqb z 0)
  | JStr s => negb (String.eqb s "")
  | JArr l => match l with [] => false | _ => true end
  | JObj l => match l with [] => false | _ => true end
  end.

(** [d.get(k, default)] and [d.get(k)]. *)
Definition dict_get (d : dict) (k : string) (default : json) : json :=
  match d !! k with
  | Some v => v
  | None => default
  end.

(** [not d] on a dictionary: true exactly on the empty one. *)
Definition dict_falsy (d : dict) : bool :=
  match map_to_list d with [] => true | _ => false end.

(** ** Exceptions and results *)

Inductive exn : Type :=
  | KeyError (k : string)
  | TypeError
  | ValueError
  | OSError
  | JSONDecodeError
  | RequestException
  | HTTPError (status : Z).

Inductive result (A : Type) : Type :=
  | Ok (a : A)
  | Raise (e : exn).
Arguments Ok {A} a.
Arguments Raise {A} e.

(** [d[k]]. *)
Definition subscript (d : dict) (k : string) : result json :=
  match d !! k with
  | Some v => Ok v
  | None => Raise (KeyError k)
  end.

(** [a + v] and [v - b] for an integer [a] or [b]: defined on numbers
    (booleans are integers in Python), a [TypeError] on everything else. *)
Definition py_add (a : Z) (v : json) : result Z :=
  match v with
  | JInt z => Ok (a + z)
  | JBool b => Ok (a + Z.b2z b)
  | _ => Raise TypeError
  end.

Definition py_sub (v : json) (b : Z) : result Z :=
  match v with
  | JInt z => Ok (z - b)
  | JBool c => Ok (Z.b2z c - b)
  | _ => Raise TypeError
  end.

Section Python.
(** Two functions of the interpreter are parameters: the integer a
    string denotes for [int()], if any, and the [repr] of lists and
    dictionaries. *)
Variable int_of_str : string → option Z.
Variable py_repr : json → string.

(** [int(v)]. *)
Definition py_int (v : json) : result Z :=
  match v with
  | JInt z => Ok z
  | JBool b => Ok (Z.b2z b)
  | JStr s =>
      match int_of_str s with
      | Some z => Ok z
      | None => Raise ValueError
      end
  | _ => Raise TypeError
  end.

(** [str(v)], which is what an f-string inserts. *)
Definition py_str (v : json) : string :=
  match v with
  | JNull => "None"
  | JBool true => "True"
  | JBool false => "False"
  | JInt z => pretty z
  | JStr s => s
  | _ => py_repr v
  end.
End Python.

(** [str(v)] of a setting read with [os.getenv] without a default. *)
Definition str_of_setting (v : option string) : string :=
  match v with
  | Some s => s
  | None => "None"
  end.

Definition json_of_setting (v : option string) : json :=
  match v with
  | Some s => JStr s
  | None => JNull
  end.

(** ** The world *)

(** What the path [TOKENS_FILE] holds: nothing, a file that cannot be
    opened, a file that is not JSON, or a JSON object (the applications
    only ever write objects; a file that holds other JSON is not part of
    the model). *)
Inductive file_state : Type :=
  | NoFile
  | Unreadable
  | Corrupt
  | Stored (d : dict).

(** An outgoing call of the [requests] library: [params] is the query,
    [data] the form fields of a POST. *)
Record http_request : Type := mk_request {
  rq_method : string;
  rq_url : string;
  rq_headers : list (string * string);
  rq_params : list (string * string);
  rq_data : list (string * json);
}.

(** The answer to a call: the status line, the body as text ([r.text]) and
    the body as [r.json()] returns it, [None] when the body is not a JSON
    object. *)
Record http_response : Type := mk_response {
  status_code : Z;
  text : string;
  json_body : option dict;
}.

(** The call fails in transit (connection error, timeout) or is answered. *)
Inductive net_outcome : Type :=
  | NetFailure
  | Answer (r : http_response).

(** The remote side: the answer to a call, given how many calls were made
    before it. *)
Abbreviation network := (nat → http_request → net_outcome).

(** The state a handler runs in.  [disk_writable] tells whether opening the
    token file for writing succeeds.  [now] is the clock in whole seconds;
    it stands still while one request is handled.  [calls] logs the
    outgoing calls, oldest first. *)
Record world : Type := mk_world {
  tokens_file : file_state;
  disk_writable : bool;
  now : Z;
  calls : list http_request;
}.

(** ** The effect monad *)

Definition M (A : Type) : Type := world → result A * world.

Global Instance M_ret : MRet M := λ A a w, (Ok a, w).

Global Instance M_bind : MBind M := λ A B k c w,
  match c w with
  | (Ok a, w') => k a w'
  | (Raise e, w') => (Raise e, w')
  end.

Definition raise {A} (e : exn) : M A := λ w, (Raise e, w).

(** A pure computation that may raise. *)
Definition lift {A} (r : result A) : M A := λ w, (r, w).

(** [try: c  except Exception: h]. *)
Definition try_except {A} (c : M A) (h : M A) : M A := λ w,
  match c w with
  | (Ok a, w') => (Ok a, w')
  | (Raise _, w') => h w'
  end.

(** [try: c  except Exception as e: h e]. *)
Definition try_except_as {A} (c : M A) (h : exn → M A) : M A := λ w,
  match c w with
  | (Ok a, w') => (Ok a, w')
  | (Raise e, w') => h e w'
  end.

(** ** Primitive effects *)

(** [os.path.exists(TOKENS_FILE)]. *)
Definition path_exists : M bool := λ w,
  (Ok match tokens_file w with NoFile => false | _ => true end, w).

(** [with open(TOKENS_FILE) as f: json.load(f)]. *)
Definition json_load : M dict := λ w,
  match tokens_file w with
  | NoFile => (Raise OSError, w)
  | Unreadable => (Raise OSError, w)
  | Corrupt => (Raise JSONDecodeError, w)
  | Stored d => (Ok d, w)
  end.

(** The world after the token file was overwritten with [d]. *)
Definition written (d : dict) (w : world) : world :=
  mk_world (Stored d) (disk_writable w) (now w) (calls w).

(** The world after the outgoing call [rq] was made. *)
Definition logged (rq : http_request) (w : world) : world :=
  mk_world (tokens_file w) (disk_writable w) (now w) (calls w ++ [rq])%list.

(** [with open(TOKENS_FILE, "w") as f: json.dump(d, f)]. *)
Definition json_dump (d : dict) : M unit := λ w,
  if disk_writable w then (Ok (), written d w) else (Raise OSError, w).

(** [int(time.time())]. *)
Definition time_time : M Z := λ w, (Ok (now w), w).

Section Network.
Variable net : network.

(** Every call is logged, answered or not. *)
Definition send (rq : http_request) : M http_response := λ w,
  match net (List.length (calls w)) rq with
  | NetFailure => (Raise RequestException, logged rq w)
  | Answer r => (Ok r, logged rq w)
  end.

Definition requests_get (url : string) (headers : list (string * string))
    (params : list (string * string)) : M http_response :=
  send (mk_request "GET" url headers params []).

Definition requests_post (url : string) (data : list (string * json)) : M http_response :=
  send (mk_request "POST" url [] [] data).
End Network.

(** The statuses [raise_for_status] raises on: 4xx and 5xx. *)
Definition is_error_status (code : Z) : bool :=
  ((400 <=? code) && (code <? 600))%Z.

(** [r.raise_for_status()]. *)
Definition raise_for_status (r : http_response) : M unit :=
  if is_error_status (status_code r)
  then raise (HTTPError (status_code r))
  else mret ().

(** [r.json()]. *)
Definition response_json (r : http_response) : M dict :=
  match json_body r with
  | Some d => mret d
  | None => raise JSONDecodeError
  end.

Definition token_endpoint : string := "https://oauth2.googleapis.com/token".

(** ** [urllib.parse.urlencode] *)

(** Strings are sequences of bytes: a Python [str] is its UTF-8 encoding. *)

Definition is_always_safe (a : ascii) : bool :=
  let n := N_of_ascii a in
  ((65 <=? n) && (n <=? 90) || (97 <=? n) && (n <=? 122)
   || (48 <=? n) && (n <=? 57)
   || (n =? 95) || (n =? 46) || (n =? 45) || (n =? 126))%N.

Definition hex_digit (n : N) : ascii :=
  (if n <? 10 then ascii_of_N (48 + n) else ascii_of_N (55 + n))%N.

(** One byte under [quote_plus]: kept, a space turned into [+], or
    percent-encoded with two upper-case hexadecimal digits. *)
Definition quote_plus_byte (a : ascii) : string :=
  if is_always_safe a then String a ""
  else if Ascii.eqb a " " then "+"
  else String "%" (String (hex_digit (N_of_ascii a / 16))
                    (String (hex_digit (N_of_ascii a mod 16)) "")).

Fixpoint quote_plus (s : string) : string :=
  match s with
  | "" => ""
  | String a s' => quote_plus_byte a ++ quote_plus s'
  end.

Definition urlencode (params : list (string * string)) : string :=
  String.concat "&" (map (λ kv, quote_plus kv.1 ++ "=" ++ quote_plus kv.2) params).

(** ** Flask requests and responses *)

(** The part of [flask.request] the handlers read: the headers, under
    lower-case names, and the query arguments. *)
Record flask_request : Type := mk_flask_request {
  headers : gmap string string;
  args : gmap string string;
}.

Inductive flask_body : Type :=
  | BText (s : string)
  | BJson (d : dict)
  | BRedirect (location : string).

Record flask_response : Type := mk_flask_response {
  body : flask_body;
  status : Z;
  content_type : option string;
}.

(** [request.args.get(k, default)]. *)
Definition args_get (req : flask_request) (k fallback : string) : string :=
  default fallback (args req !! k).

(** ** JSON bodies, [base64] and nested JSON *)

Section Network_json.
Variable net : network.

(** [requests.post(url, headers=headers, json=payload)] with a JSON object
    as payload.  The call is logged with the members of the object as its
    [rq_data]; the [Content-Type: application/json] among its headers tells
    it from a form. *)
Definition requests_post_json (url : string) (headers : list (string * string))
    (payload : list (string * json)) : M http_response :=
  send net (mk_request "POST" url headers [] payload).
End Network_json.

(** [{**headers, "Content-Type": "application/json"}]: the entry is
    replaced where the key is present and added at the end where it is
    not. *)
Fixpoint with_header (headers : list (string * string)) (k v : string) :
    list (string * string) :=
  match headers with
  | [] => [(k, v)]
  | (k', v') :: rest =>
      if String.eqb k' k then (k, v) :: rest
      else (k', v') :: with_header rest k v
  end.

(** The line end of a mail header, ["\r\n"]. *)
Definition CRLF : string := String "013" (String "010" EmptyString).

(** The URL-safe base64 alphabet: [A-Z], [a-z], [0-9], [-], [_]. *)
Definition b64_char (n : N) : ascii :=
  (if n <? 26 then ascii_of_N (65 + n)
   else if n <? 52 then ascii_of_N (71 + n)
   else if n <? 62 then ascii_of_N (n - 4)
   else if n =? 62 then "-"%char
   else "_"%char)%N.

(** [base64.urlsafe_b64encode]: three bytes give four characters; one or
    two bytes left over give two or three characters and [=] padding. *)
Fixpoint urlsafe_b64encode (s : string) : string :=
  match s with
  | EmptyString => EmptyString
  | String a EmptyString =>
      let x := N_of_ascii a in
      String (b64_char (x / 4))
        (String (b64_char (x mod 4 * 16)) "==")
  | String a (String b EmptyString) =>
      let x := N_of_ascii a in
      let y := N_of_ascii b in
      String (b64_char (x / 4))
        (String (b64_char (x mod 4 * 16 + y / 16))
           (String (b64_char (y mod 16 * 4)) "="))
  | String a (String b (String c rest)) =>
      let x := N_of_ascii a in
      let y := N_of_ascii b in
      let z := N_of_ascii c in
      String (b64_char (x / 4))
        (String (b64_char (x mod 4 * 16 + y / 16))
           (String (b64_char (y mod 16 * 4 + z / 64))
              (String (b64_char (z mod 64)) (urlsafe_b64encode rest))))
  end%N.

(** [d.get(k, default)] on a nested JSON object, whose members are listed
    in order, each key once. *)
Fixpoint member (k : string) (l : list (string * json)) : option json :=
  match l with
  | [] => None
  | (k', v) :: rest => if String.eqb k' k then Some v else member k rest
  end.

(** * [src/App.py] *)

Module App1.
Section App.
(** The module globals.  [os.getenv] without a default gives [None] for
    an unset variable; [GOOGLE_SCOPES] has a default. *)
Variables CLIENT_ID CLIENT_SECRET REDIRECT_URI : option string.
Variable SCOPES : string.
Variable API_KEY : option string.
Variable py_repr : json → string.
Variable net : network.

Definition _forbidden : flask_response :=
  mk_flask_response (BText "Forbidden") 403 None.

Definition _need_auth : flask_response :=
  mk_flask_response (BText "Not authorized. Open /auth/start first.") 401 None.

(** [API_KEY and req.headers.get("x-api-key") == API_KEY], as the truth
    value the callers test. *)
Definition require_api_key (req : flask_request) : bool :=
  match API_KEY with
  | None => false
  | Some key =>
      if String.eqb key "" then false
      else match headers req !! "x-api-key" with
           | Some given => String.eqb given key
           | None => false
           end
  end.

Definition load_tokens : M (option dict) :=
  present ← path_exists;
  if negb present then mret None
  else d ← json_load; mret (Some d).

Definition save_tokens (d : dict) : M unit := json_dump d.

Definition refresh_access_token (refresh_token : json) : M dict :=
  let data := [("client_id", json_of_setting CLIENT_ID);
               ("client_secret", json_of_setting CLIENT_SECRET);
               ("refresh_token", refresh_token);
               ("grant_type", JStr "refresh_token")] in
  r ← requests_post net token_endpoint data;
  raise_for_status r;;
  j ← response_json r;
  let j := <["refresh_token" := refresh_token]> j in
  t ← time_time;
  e ← lift (py_add t (dict_get j "expires_in" (JInt 3500)));
  let j := <["expires_at" := JInt e]> j in
  save_tokens j;;
  mret j.

(** The access token, or [None] (here [JNull]). *)
Definition get_access_token : M json :=
  t ← load_tokens;
  match t with
  | None => mret JNull
  | Some t =>
      if dict_falsy t then mret JNull
      else
        n ← time_time;
        limit ← lift (py_sub (dict_get t "expires_at" (JInt 0)) 60);
        t ← (if (n >=? limit)%Z
             then rt ← lift (subscript t "refresh_token");
                  refresh_access_token rt
             else mret t);
        lift (subscript t "access_token")
  end.

Definition consent_params : list (string * string) :=
  [("client_id", str_of_setting CLIENT_ID);
   ("redirect_uri", str_of_setting REDIRECT_URI);
   ("response_type", "code");
   ("access_type", "offline");
   ("prompt", "consent");
   ("scope", SCOPES)].

Definition consent_url : string :=
  "https://accounts.google.com/o/oauth2/auth?" ++ urlencode consent_params.

Definition auth_start : M flask_response :=
  mret (mk_flask_response (BRedirect consent_url) 302 None).

Definition auth_callback (req : flask_request) : M flask_response :=
  match args req !! "code" with
  | None => mret (mk_flask_response (BText "Missing code") 400 None)
  | Some code =>
      if String.eqb code "" then mret (mk_flask_response (BText "Missing code") 400 None)
      else
        let data := [("code", JStr code);
                     ("client_id", json_of_setting CLIENT_ID);
                     ("client_secret", json_of_setting CLIENT_SECRET);
                     ("redirect_uri", json_of_setting REDIRECT_URI);
                     ("grant_type", JStr "authorization_code")] in
        r ← requests_post net token_endpoint data;
        raise_for_status r;;
        j ← response_json r;
        t ← time_time;
        e ← lift (py_add t (dict_get j "expires_in" (JInt 3500)));
        let j := <["expires_at" := JInt e]> j in
        save_tokens j;;
        mret (mk_flask_response
                (BText "Google account gekoppeld. Je kunt nu /gmail/unread, /calendar/events of /contacts/list testen.")
                200 None)
  end.

(** [{"Authorization": f"Bearer {token}"}]. *)
Definition bearer (token : json) : list (string * string) :=
  [("Authorization", "Bearer " ++ py_str py_repr token)].

(** What every proxying handler returns:
    [(r.text, r.status_code, {"Content-Type": "application/json"})]. *)
Definition relay (r : http_response) : flask_response :=
  mk_flask_response (BText (text r)) (status_code r) (Some "application/json").

Definition gmail_unread (req : flask_request) : M flask_response :=
  if negb (require_api_key req) then mret _forbidden
  else
    token ← get_access_token;
    if negb (truthy token) then mret _need_auth
    else
      let q := args_get req "q" "is:unread" in
      let max_results := args_get req "maxResults" "10" in
      let url := "https://gmail.googleapis.com/gmail/v1/users/me/messages" in
      r ← requests_get net url (bearer token) [("q", q); ("maxResults", max_results)];
      mret (relay r).

Definition gmail_message (req : flask_request) : M flask_response :=
  if negb (require_api_key req) then mret _forbidden
  else
    token ← get_access_token;
    if negb (truthy token) then mret _need_auth
    else
      match args req !! "id" with
      | None => mret (mk_flask_response (BText "Missing id") 400 None)
      | Some mid =>
          if String.eqb mid "" then mret (mk_flask_response (BText "Missing id") 400 None)
          else
            let url := "https://gmail.googleapis.com/gmail/v1/users/me/messages/" ++ mid in
            r ← requests_get net url (bearer token) [("format", "full")];
            mret (relay r)
      end.
(** [int()] on a string, a function of the interpreter. *)
Variable int_of_str : string → option Z.

(** [{k: v for k, v in params.items() if v}]: the entries whose value is
    neither [None] nor empty. *)
Fixpoint truthy_params (params : list (string * option string)) :
    list (string * string) :=
  match params with
  | [] => []
  | (k, Some v) :: rest =>
      if String.eqb v "" then truthy_params rest else (k, v) :: truthy_params rest
  | (_, None) :: rest => truthy_params rest
  end.

Definition cal_events (req : flask_request) : M flask_response :=
  if negb (require_api_key req) then mret _forbidden
  else
    token ← get_access_token;
    if negb (truthy token) then mret _need_auth
    else
      let params := [("singleEvents", Some "true");
                     ("orderBy", Some "startTime");
                     ("timeMin", args req !! "timeMin");
                     ("timeMax", args req !! "timeMax");
                     ("maxResults", Some (args_get req "maxResults" "10"))] in
      let url := "https://www.googleapis.com/calendar/v3/calendars/primary/events" in
      r ← requests_get net url (bearer token) (truthy_params params);
      mret (relay r).

Definition BASE_PEOPLE : string := "https://people.googleapis.com/v1".

Definition contacts_list (req : flask_request) : M flask_response :=
  if negb (require_api_key req) then mret _forbidden
  else
    token ← get_access_token;
    if negb (truthy token) then mret _need_auth
    else
      limit ← lift (py_int int_of_str (JStr (args_get req "limit" "50")));
      let url := BASE_PEOPLE ++ "/people/me/connections" in
      r ← requests_get net url (bearer token)
            [("personFields", "names,emailAddresses,phoneNumbers,organizations");
             ("pageSize", pretty limit)];
      mret (relay r).

Definition contacts_search (req : flask_request) : M flask_response :=
  if negb (require_api_key req) then mret _forbidden
  else
    token ← get_access_token;
    if negb (truthy token) then mret _need_auth
    else
      match args req !! "q" with
      | None => mret (mk_flask_response (BText "Missing q") 400 None)
      | Some q =>
          if String.eqb q "" then mret (mk_flask_response (BText "Missing q") 400 None)
          else
            limit ← lift (py_int int_of_str (JStr (args_get req "limit" "25")));
            let url := BASE_PEOPLE ++ "/people:searchContacts" in
            r ← requests_get net url (bearer token)
                  [("query", q);
                   ("readMask", "names,emailAddresses,phoneNumbers,organizations");
                   ("pageSize", pretty limit)];
            mret (relay r)
      end.

Definition contacts_get (req : flask_request) : M flask_response :=
  if negb (require_api_key req) then mret _forbidden
  else
    token ← get_access_token;
    if negb (truthy token) then mret _need_auth
    else
      match args req !! "id" with
      | None => mret (mk_flask_response (BText "Missing id") 400 None)
      | Some rid =>
          if String.eqb rid "" then mret (mk_flask_response (BText "Missing id") 400 None)
          else
            let url := BASE_PEOPLE ++ "/" ++ rid in
            r ← requests_get net url (bearer token)
                  [("personFields", "names,emailAddresses,phoneNumbers,organizations")];
            mret (relay r)
      end.
End App.
End App1.

(** * [src/app.py] *)

Module App2.
Section App.
(** The module globals.  Here every [os.getenv] has the default [""],
    and [SCOPES] is a list. *)
Variables CLIENT_ID CLIENT_SECRET REDIRECT_URI API_KEY : string.
Variable SCOPES : list string.
Variable int_of_str : string → option Z.
Variable py_repr : json → string.
(** The text of an exception, as [f"{e}"] gives it. *)
Variable str_of_exn : exn → string.
Variable net : network.

Definition _forbidden : flask_response :=
  mk_flask_response (BJson {["error" := JStr "Forbidden"]}) 403 None.

(** The decorator: the wrapped handler. *)
Definition require_api_key (func : flask_request → M flask_response)
    (req : flask_request) : M flask_response :=
  if negb (String.eqb API_KEY "") then
    let given := default "" (headers req !! "x-api-key") in
    if negb (String.eqb given API_KEY) then mret _forbidden
    else func req
  else func req.

Definition load_tokens : M dict :=
  present ← path_exists;
  if negb present then mret ∅
  else try_except json_load (mret ∅).

Definition save_tokens (data : dict) : M unit := json_dump data.

Definition _need_auth : flask_response :=
  mk_flask_response
    (BJson {["error" := JStr "Not authorized. Open /auth/start first."]}) 401 None.

Definition _exchange_code_for_tokens (code : string) : M dict :=
  let data := [("code", JStr code);
               ("client_id", JStr CLIENT_ID);
               ("client_secret", JStr CLIENT_SECRET);
               ("redirect_uri", JStr REDIRECT_URI);
               ("grant_type", JStr "authorization_code")] in
  r ← requests_post net token_endpoint data;
  raise_for_status r;;
  token_json ← response_json r;
  t ← time_time;
  ttl ← lift (py_int int_of_str (dict_get token_json "expires_in" (JInt 3600)));
  let expires_at := (t + ttl - 60)%Z in
  mret (<["expires_at" := JInt expires_at]> token_json).

Definition _refresh_access_token (refresh_token : json) : M dict :=
  let data := [("client_id", JStr CLIENT_ID);
               ("client_secret", JStr CLIENT_SECRET);
               ("refresh_token", refresh_token);
               ("grant_type", JStr "refresh_token")] in
  r ← requests_post net token_endpoint data;
  raise_for_status r;;
  token_json ← response_json r;
  let token_json := <["refresh_token" := refresh_token]> token_json in
  t ← time_time;
  ttl ← lift (py_int int_of_str (dict_get token_json "expires_in" (JInt 3600)));
  mret (<["expires_at" := JInt (t + ttl - 60)]> token_json).

(** The [Authorization] header, or [None]. *)
Definition _google_headers : M (option (list (string * string))) :=
  tokens ← load_tokens;
  if dict_falsy tokens then mret None
  else
    expires_at ← lift (py_int int_of_str (dict_get tokens "expires_at" (JInt 0)));
    t ← time_time;
    (* [None]: one of the two early returns in the refresh branch *)
    tokens ← (if (expires_at <=? t)%Z then
                if negb (truthy (dict_get tokens "refresh_token" JNull)) then mret None
                else
                  try_except
                    (rt ← lift (subscript tokens "refresh_token");
                     tokens ← _refresh_access_token rt;
                     save_tokens tokens;;
                     mret (Some tokens))
                    (mret None)
              else mret (Some tokens));
    match tokens with
    | None => mret None
    | Some tokens =>
        let access_token := dict_get tokens "access_token" JNull in
        if negb (truthy access_token) then mret None
        else mret (Some [("Authorization", "Bearer " ++ py_str py_repr access_token)])
    end.

Definition consent_params : list (string * string) :=
  [("response_type", "code");
   ("client_id", CLIENT_ID);
   ("redirect_uri", REDIRECT_URI);
   ("scope", String.concat " " SCOPES);
   ("access_type", "offline");
   ("prompt", "consent");
   ("include_granted_scopes", "true")].

Definition consent_url : string :=
  "https://accounts.google.com/o/oauth2/auth?" ++ urlencode consent_params.

Definition auth_start : flask_request → M flask_response :=
  require_api_key (λ _, mret (mk_flask_response (BRedirect consent_url) 302 None)).

Definition auth_callback (req : flask_request) : M flask_response :=
  match args req !! "code" with
  | None => mret (mk_flask_response (BText "Missing code") 400 None)
  | Some code =>
      if String.eqb code "" then mret (mk_flask_response (BText "Missing code") 400 None)
      else
        try_except_as
          (tokens ← _exchange_code_for_tokens code;
           save_tokens tokens;;
           mret (mk_flask_response
                   (BText "Google account gekoppeld. Je kunt nu /gmail/unread, /calendar/events of /contacts/list testen.")
                   200 None))
          (λ e, mret (mk_flask_response
                        (BText ("Error exchanging code: " ++ str_of_exn e)) 400 None))
  end.

(** [return r.json(), r.status_code]. *)
Definition relay (r : http_response) : M flask_response :=
  j ← response_json r;
  mret (mk_flask_response (BJson j) (status_code r) None).

Definition gmail_unread : flask_request → M flask_response :=
  require_api_key (λ req,
    headers ← _google_headers;
    match headers with
    | None => mret _need_auth
    | Some headers =>
        let q := args_get req "q" "is:unread" in
        let max_results := args_get req "maxResults" "10" in
        let url := "https://gmail.googleapis.com/gmail/v1/users/me/messages" in
        let params := [("q", q); ("maxResults", max_results)] in
        r ← requests_get net url headers params;
        r ← (if (status_code r =? 401)%Z then
               tokens ← load_tokens;
               if truthy (dict_get tokens "refresh_token" JNull) then
                 try_except
                   (rt ← lift (subscript tokens "refresh_token");
                    fresh ← _refresh_access_token rt;
                    save_tokens fresh;;
                    headers ← _google_headers;
                    requests_get net url (default [] headers) params)
                   (mret r)
               else mret r
             else mret r);
        relay r
    end).

Definition gmail_message : flask_request → M flask_response :=
  require_api_key (λ req,
    headers ← _google_headers;
    match headers with
    | None => mret _need_auth
    | Some headers =>
        match args req !! "id" with
        | None => mret (mk_flask_response (BJson {["error" := JStr "id required"]}) 400 None)
        | Some mid =>
            if String.eqb mid ""
            then mret (mk_flask_response (BJson {["error" := JStr "id required"]}) 400 None)
            else
              let url := "https://gmail.googleapis.com/gmail/v1/users/me/messages/" ++ mid in
              r ← requests_get net url headers [("format", "full")];
              relay r
        end
    end).
(** [{"error": msg}, 400]. *)
Definition bad_request (msg : string) : flask_response :=
  mk_flask_response (BJson {["error" := JStr msg]}) 400 None.

(** [str.lower], a function of the interpreter. *)
Variable str_lower : string → string.

(** The loop of [_hdr] over a list.  [None] stands for the
    [AttributeError] of an element that is no dictionary or whose [name]
    is no string. *)
Fixpoint _hdr_loop (l : list json) (name : string) (fallback : json) : option json :=
  match l with
  | [] => Some fallback
  | JObj h :: rest =>
      match default (JStr "") (member "name" h) with
      | JStr n =>
          if String.eqb (str_lower n) (str_lower name)
          then Some (default fallback (member "value" h))
          else _hdr_loop rest name fallback
      | _ => None
      end
  | _ :: _ => None
  end.

(** [_hdr(headers, name, default)].  A falsy [headers] is the empty list;
    iterating anything else than a list ends in an exception ([None]). *)
Definition _hdr (headers : json) (name : string) (fallback : json) : option json :=
  match headers with
  | JArr l => _hdr_loop l name fallback
  | v => if truthy v then None else Some fallback
  end.

Definition json_headers (headers : list (string * string)) : list (string * string) :=
  with_header headers "Content-Type" "application/json".

(** The handlers that take a JSON body get it as [data]: what
    [request.get_json(force=True, silent=True)] returns, the JSON object of
    the body, or [None]. *)
Definition gmail_send (data : option dict) : flask_request → M flask_response :=
  require_api_key (λ req,
    headers ← _google_headers;
    match headers with
    | None => mret _need_auth
    | Some headers =>
        let data := default ∅ data in
        let to := dict_get data "to" JNull in
        let subject := dict_get data "subject" (JStr "") in
        let body := dict_get data "body" (JStr "") in
        if negb (truthy to) then mret (bad_request "to required")
        else
          let raw :=
            "To: " ++ py_str py_repr to ++ CRLF ++
            "Subject: " ++ py_str py_repr subject ++ CRLF ++
            "Content-Type: text/plain; charset=UTF-8" ++ CRLF ++
            CRLF ++
            py_str py_repr body ++ CRLF in
          let b64 := urlsafe_b64encode raw in
          r ← requests_post_json net
                "https://gmail.googleapis.com/gmail/v1/users/me/messages/send"
                (json_headers headers) [("raw", JStr b64)];
          relay r
    end).

(** [gmail_mark_read] and [gmail_archive] differ in the label they
    remove. *)
Definition modify_labels (label : string) (data : option dict) :
    flask_request → M flask_response :=
  require_api_key (λ req,
    headers ← _google_headers;
    match headers with
    | None => mret _need_auth
    | Some headers =>
        let data := default ∅ data in
        let msg_id := dict_get data "id" JNull in
        if negb (truthy msg_id) then mret (bad_request "id required")
        else
          r ← requests_post_json net
                ("https://gmail.googleapis.com/gmail/v1/users/me/messages/"
                 ++ py_str py_repr msg_id ++ "/modify")
                (json_headers headers)
                [("removeLabelIds", JArr [JStr label])];
          relay r
    end).

Definition gmail_mark_read : option dict → flask_request → M flask_response :=
  modify_labels "UNREAD".

Definition gmail_archive : option dict → flask_request → M flask_response :=
  modify_labels "INBOX".

(** [if k in request.args: params[k] = request.args[k]]. *)
Definition forward_arg (req : flask_request) (k : string)
    (params : list (string * string)) : list (string * string) :=
  match args req !! k with
  | Some v => (params ++ [(k, v)])%list
  | None => params
  end.

Definition calendar_events : flask_request → M flask_response :=
  require_api_key (λ req,
    headers ← _google_headers;
    match headers with
    | None => mret _need_auth
    | Some headers =>
        let params := [] in
        let params := forward_arg req "timeMin" params in
        let params := forward_arg req "timeMax" params in
        let params := forward_arg req "maxResults" params in
        r ← requests_get net
              "https://www.googleapis.com/calendar/v3/calendars/primary/events"
              headers params;
        relay r
    end).

Definition contacts_list : flask_request → M flask_response :=
  require_api_key (λ req,
    headers ← _google_headers;
    match headers with
    | None => mret _need_auth
    | Some headers =>
        limit ← lift (py_int int_of_str (JStr (args_get req "limit" "50")));
        r ← requests_get net "https://people.googleapis.com/v1/otherContacts" headers
              [("pageSize", pretty limit);
               ("readMask", "names,emailAddresses,phoneNumbers")];
        relay r
    end).

Definition contacts_search : flask_request → M flask_response :=
  require_api_key (λ req,
    headers ← _google_headers;
    match headers with
    | None => mret _need_auth
    | Some headers =>
        match args req !! "q" with
        | None => mret (bad_request "q required")
        | Some q =>
            if String.eqb q "" then mret (bad_request "q required")
            else
              limit ← lift (py_int int_of_str (JStr (args_get req "limit" "25")));
              r ← requests_get net "https://people.googleapis.com/v1/otherContacts:search"
                    headers
                    [("query", q);
                     ("pageSize", pretty limit);
                     ("readMask", "names,emailAddresses,phoneNumbers")];
              relay r
        end
    end).

Definition contacts_get : flask_request → M flask_response :=
  require_api_key (λ req,
    headers ← _google_headers;
    match headers with
    | None => mret _need_auth
    | Some headers =>
        match args req !! "id" with
        | None => mret (bad_request "id required")
        | Some rid =>
            if String.eqb rid "" then mret (bad_request "id required")
            else
              r ← requests_get net ("https://people.googleapis.com/v1/" ++ rid) headers
                    [("readMask", "names,emailAddresses,phoneNumbers")];
              relay r
        end
    end).
End App.
End App2.

(** * Vocabulary of the statements *)

(** The call by which [src/App.py] refreshes. *)
Definition refresh_request1 (CLIENT_ID CLIENT_SECRET : option string)
    (refresh_token : json) : http_request :=
  mk_request "POST" token_endpoint [] []
    [("client_id", json_of_setting CLIENT_ID);
     ("client_secret", json_of_setting CLIENT_SECRET);
     ("refresh_token", refresh_token);
     ("grant_type", JStr "refresh_token")].

(** The call by which [src/app.py] refreshes. *)
Definition refresh_request2 (CLIENT_ID CLIENT_SECRET : string)
    (refresh_token : json) : http_request :=
  mk_request "POST" token_endpoint [] []
    [("client_id", JStr CLIENT_ID);
     ("client_secret", JStr CLIENT_SECRET);
     ("refresh_token", refresh_token);
     ("grant_type", JStr "refresh_token")].

(** The calls by which the two files exchange an authorization code. *)
Definition exchange_request1 (CLIENT_ID CLIENT_SECRET REDIRECT_URI : option string)
    (code : string) : http_request :=
  mk_request "POST" token_endpoint [] []
    [("code", JStr code);
     ("client_id", json_of_setting CLIENT_ID);
     ("client_secret", json_of_setting CLIENT_SECRET);
     ("redirect_uri", json_of_setting REDIRECT_URI);
     ("grant_type", JStr "authorization_code")].

Definition exchange_request2 (CLIENT_ID CLIENT_SECRET REDIRECT_URI : string)
    (code : string) : http_request :=
  mk_request "POST" token_endpoint [] []
    [("code", JStr code);
     ("client_id", JStr CLIENT_ID);
     ("client_secret", JStr CLIENT_SECRET);
     ("redirect_uri", JStr REDIRECT_URI);
     ("grant_type", JStr "authorization_code")].

(** What [_google_headers] of [src/app.py] makes of a token dictionary it
    decided to use: the header with its access token, or [None]. *)
Definition authorization2 (py_repr : json → string) (tokens : dict) :
    option (list (string * string)) :=
  let access_token := dict_get tokens "access_token" JNull in
  if negb (truthy access_token) then None
  else Some [("Authorization", "Bearer " ++ py_str py_repr access_token)].

(** The token dictionary a refresh builds from the answer [j]: the refresh
    token that was sent and the new expiry are written into it. *)
Definition refreshed (rt : json) (expires_at : Z) (j : dict) : dict :=
  <["expires_at" := JInt expires_at]> (<["refresh_token" := rt]> j).

(** Reading a URL back: the query string is what follows the first [?],
    and its parameters are the pieces between the [&]. *)
Fixpoint occurs (c : ascii) (s : string) : bool :=
  match s with
  | EmptyString => false
  | String a s' => Ascii.eqb a c || occurs c s'
  end.

Fixpoint split_on (sep : ascii) (s : string) : list string :=
  match s with
  | EmptyString => [EmptyString]
  | String a s' =>
      if Ascii.eqb a sep then EmptyString :: split_on sep s'
      else match split_on sep s' with
           | x :: xs => String a x :: xs
           | [] => [String a EmptyString]
           end
  end.

Fixpoint query_string (url : string) : string :=
  match url with
  | EmptyString => EmptyString
  | String a s' => if Ascii.eqb a "?" then s' else query_string s'
  end.

Definition query_parameters (url : string) : list string :=
  split_on "&" (query_string url).

(** The test of the decorator of [src/app.py]: no key is configured, or
    the header carries it. *)
Definition key_accepted (API_KEY : string) (req : flask_request) : bool :=
  String.eqb API_KEY ""
  || String.eqb (default "" (headers req !! "x-api-key")) API_KEY.

(** [redirect(url)]. *)
Definition redirect_to (url : string) : flask_response :=
  mk_flask_response (BRedirect url) 302 None.

(** The calls of the two Gmail handlers modelled here. *)
Definition unread_request (hdrs : list (string * string)) (req : flask_request) :
    http_request :=
  mk_request "GET" "https://gmail.googleapis.com/gmail/v1/users/me/messages" hdrs
    [("q", args_get req "q" "is:unread");
     ("maxResults", args_get req "maxResults" "10")] [].

Definition message_get_request (hdrs : list (string * string)) (mid : string) :
    http_request :=
  mk_request "GET" ("https://gmail.googleapis.com/gmail/v1/users/me/messages/" ++ mid)
    hdrs [("format", "full")] [].

(** Running [c] only adds to the log of calls, and adds at most [n]. *)
Definition adds_calls {A} (n : nat) (c : M A) : Prop :=
  ∀ w, ∃ l, calls (c w).2 = (calls w ++ l)%list ∧ (List.length l ≤ n)%nat.

(** The store holds a record whose refresh token is [rt]. *)
Definition holds_refresh_token (rt : json) (w : world) : Prop :=
  ∃ t, tokens_file w = Stored t ∧ t !! "refresh_token" = Some rt.

(** [c] keeps the refresh token [rt] in the store, and what it returns
    satisfies [Q]. *)
Definition keeps_refresh_token {A} (rt : json) (c : M A) (Q : A → Prop) : Prop :=
  ∀ w, holds_refresh_token rt w →
       holds_refresh_token rt (c w).2 ∧ ∀ a, (c w).1 = Ok a → Q a.

(** Whatever refresh token the store holds, it holds it after [c]. *)
Definition retains_refresh_token {A} (c : M A) : Prop :=
  ∀ rt w, holds_refresh_token rt w → holds_refresh_token rt (c w).2.

(** The argument [k] of the request is missing or empty: [not
    request.args.get(k)]. *)
Definition arg_missing (req : flask_request) (k : string) : bool :=
  match args req !! k with
  | Some v => String.eqb v ""
  | None => true
  end.

(** What a handler of [src/app.py] answers when it stops after the
    credential check with [answer]: Not Authorized when [_google_headers]
    gave absent, [answer] when it gave a header, and what
    [_google_headers] raised when it raised. *)
Definition after_google_headers
    (h : result (option (list (string * string))) * world)
    (answer : flask_response) : result flask_response * world :=
  match h with
  | (Ok None, w') => (Ok App2._need_auth, w')
  | (Ok (Some _), w') => (Ok answer, w')
  | (Raise x, w') => (Raise x, w')
  end.

(** The same for [src/App.py] and [get_access_token]. *)
Definition after_get_access_token (t : result json * world)
    (answer : flask_response) : result flask_response * world :=
  match t with
  | (Ok token, w') => (Ok (if truthy token then answer else App1._need_auth), w')
  | (Raise x, w') => (Raise x, w')
  end.

(** The name of a header entry as [_hdr] reads it: the member [name] of a
    JSON object, the empty string when it has none; nothing when the entry
    is no object or its [name] is no string. *)
Definition header_name (h : json) : option string :=
  match h with
  | JObj m =>
      match member "name" m with
      | None => Some ""
      | Some (JStr n) => Some n
      | Some _ => None
      end
  | _ => None
  end.

(** The member [value] of a header entry. *)
Definition header_value (h : json) : option json :=
  match h with
  | JObj m => member "value" m
  | _ => None
  end.

(** The entry is well formed and is not the header [name]. *)
Definition other_header (str_lower : string → string) (name : string) (h : json) : Prop :=
  ∃ n, header_name h = Some n ∧ str_lower n ≠ str_lower name.

(** The place of a character in the URL-safe base64 alphabet. *)
Definition b64_index (c : ascii) : option N :=
  (let n := N_of_ascii c in
   if (65 <=? n) && (n <=? 90) then Some (n - 65)
   else if (97 <=? n) && (n <=? 122) then Some (n - 71)
   else if (48 <=? n) && (n <=? 57) then Some (n + 4)
   else if n =? 45 then Some 62
   else if n =? 95 then Some 63
   else None)%N.

(** Strict decoding of padded URL-safe base64 (RFC 4648, section 5): groups
    of four characters of the alphabet, the last one padded with [=]; any
    other text has no decoding.  The statements read the [raw] field of a
    sent mail with it. *)
Fixpoint urlsafe_b64decode (s : string) : option string :=
  match s with
  | EmptyString => Some EmptyString
  | String a (String b (String c (String d rest))) =>
      match b64_index a, b64_index b, b64_index c, b64_index d with
      | Some i, Some j, Some k, Some l =>
          option_map
            (λ tail,
               String (ascii_of_N (i * 4 + j / 16))
                 (String (ascii_of_N (j mod 16 * 16 + k / 4))
                    (String (ascii_of_N (k mod 4 * 64 + l)) tail)))
            (urlsafe_b64decode rest)
      | Some i, Some j, Some k, None =>
          if Ascii.eqb d "=" && String.eqb rest ""
          then Some (String (ascii_of_N (i * 4 + j / 16))
                       (String (ascii_of_N (j mod 16 * 16 + k / 4)) EmptyString))
          else None
      | Some i, Some j, None, None =>
          if Ascii.eqb c "=" && Ascii.eqb d "=" && String.eqb rest ""
          then Some (String (ascii_of_N (i * 4 + j / 16)) EmptyString)
          else None
      | _, _, _, _ => None
      end
  | _ => None
  end%N.

(** A token endpoint call that fails in transit, is answered with an
    error status, or is answered with a body that is not JSON. *)
Definition call_fails (o : net_outcome) : bool :=
  match o with
  | NetFailure => true
  | Answer r =>
      is_error_status (status_code r)
      || match json_body r with None => true | Some _ => false end
  end.

(** ** Concrete inputs *)

(** A store with a record that expires at 5000 and one that expired at 0,
    with and without a refresh token; the clock reads 1000. *)
Definition fresh_record : dict :=
  <["access_token" := JStr "at0"]>
    (<["refresh_token" := JStr "rt0"]> (<["expires_at" := JInt 5000]> ∅)).

Definition stale_record : dict :=
  <["access_token" := JStr "at0"]>
    (<["refresh_token" := JStr "rt0"]> (<["expires_at" := JInt 0]> ∅)).

Definition stale_record_without_refresh_token : dict :=
  <["access_token" := JStr "at0"]> (<["expires_at" := JInt 0]> ∅).

Definition world_with (f : file_state) : world := mk_world f true 1000 [].

(** A request that carries neither headers nor arguments. *)
Definition bare_request : flask_request := mk_flask_request ∅ ∅.

(** Remote sides: one that is unreachable, and one that answers every call
    with the given response. *)
Definition unreachable : network := λ _ _, NetFailure.

Definition answering (r : http_response) : network := λ _ _, Answer r.

(** A token endpoint that answers with status 200 and the JSON object
    [j]. *)
Definition granting (j : dict) : network := answering (mk_response 200 "" (Some j)).

(** A token endpoint answer with a new access token that lives 3600
    seconds. *)
Definition answer_3600 : dict :=
  <["expires_in" := JInt 3600]> {["access_token" := JStr "at1"]}.

(** The request the provider redirects the browser to, with a code. *)
Definition callback_request : flask_request :=
  mk_flask_request ∅ {["code" := "c0d3"]}.

Definition no_exn_text : exn → string := λ _, "?".

(** A request for the message [m1]. *)
Definition message_request : flask_request :=
  mk_flask_request ∅ {["id" := "m1"]}.

(** The body with which the Gmail API rejects a bearer token. *)
Definition unauthenticated : http_response :=
  mk_response 401 "{error}" (Some {["error" := JStr "UNAUTHENTICATED"]}).

(** A remote side whose token endpoint grants [answer_3600] and whose other
    endpoints reject every bearer token. *)
Definition rejecting_bearer : network := λ _ rq,
  if String.eqb (rq_url rq) token_endpoint
  then Answer (mk_response 200 "" (Some answer_3600))
  else Answer unauthenticated.

(** A remote side whose Gmail API rejects every bearer token and whose
    token endpoint refuses the refresh token. *)
Definition revoked : network := λ _ rq,
  if String.eqb (rq_url rq) token_endpoint
  then Answer (mk_response 400 "{invalid_grant}" (Some {["error" := JStr "invalid_grant"]}))
  else Answer unauthenticated.

(** A remote side whose API rejects every bearer token and whose token
    endpoint grants access tokens that live 30 seconds, less than the
    margin. *)
Definition short_lived : network := λ _ rq,
  if String.eqb (rq_url rq) token_endpoint
  then Answer (mk_response 200 ""
                 (Some (<["expires_in" := JInt 30]> {["access_token" := JStr "at1"]})))
  else Answer unauthenticated.


(** A token endpoint answer with an access token that lives 30 seconds
    and no refresh token. *)
Definition answer_30 : dict :=
  <["expires_in" := JInt 30]> {["access_token" := JStr "at1"]}.

(** An [int()] that knows the numbers 25 and 50. *)
Definition int_of_few : string → option Z := λ s,
  if String.eqb s "25" then Some 25%Z
  else if String.eqb s "50" then Some 50%Z
  else None.

(** A request for ten thousand contacts, spelled out. *)
Definition worded_limit_request : flask_request :=
  mk_flask_request ∅ {["limit" := "ten thousand"]}.

(** A calendar request with an empty [timeMin], an empty [maxResults] and
    an argument the handlers do not know. *)
Definition calendar_request : flask_request :=
  mk_flask_request {["x-api-key" := "k3y"]}
    (<["timeMin" := ""]> (<["maxResults" := ""]> {["pageToken" := "p2"]})).

(** [str.lower] on ASCII text. *)
Definition lower_ascii_char (c : ascii) : ascii :=
  let n := N_of_ascii c in
  if ((65 <=? n) && (n <=? 90))%N then ascii_of_N (n + 32) else c.

Fixpoint lower_ascii (s : string) : string :=
  match s with
  | EmptyString => EmptyString
  | String c rest => String (lower_ascii_char c) (lower_ascii rest)
  end.

(** The headers of a message: an entry without a name, [From] twice in
    different case, and an entry that is no object in between. *)
Definition mail_headers : json :=
  JArr [JObj [("name", JStr "Subject"); ("value", JStr "Hi")];
        JObj [("value", JStr "nameless")];
        JObj [("name", JStr "FROM"); ("value", JStr "a@b.c")];
        JInt 3;
        JObj [("name", JStr "From"); ("value", JStr "second")]].

(** The body of a request to send a mail. *)
Definition mail_data : dict :=
  <["to" := JStr "a@b.c"]> (<["subject" := JStr "Hi"]> {["body" := JStr "see you"]}).

Definition no_repr : json → string := λ _, "?".

Definition no_int : string → option Z := λ _, None.

(** * Basic facts *)

Ltac run :=
  repeat (unfold mbind, M_bind, mret, M_ret, lift, raise, try_except; simpl).

Lemma dict_falsy_false (d : dict) k v : d !! k = Some v → dict_falsy d = false.
Proof.
  intros H. unfold dict_falsy. destruct (map_to_list d) eqn:E; [|done].
  apply map_to_list_empty_iff in E. subst. by rewrite lookup_empty in H.
Qed.

Lemma refreshed_refresh_token rt e j : refreshed rt e j !! "refresh_token" = Some rt.
Proof.
  unfold refreshed. rewrite lookup_insert_ne by done. apply lookup_insert_eq.
Qed.

Lemma refreshed_expires_at rt e j : refreshed rt e j !! "expires_at" = Some (JInt e).
Proof. unfold refreshed. apply lookup_insert_eq. Qed.

Lemma dict_falsy_empty : dict_falsy ∅ = true.
Proof. unfold dict_falsy. by rewrite map_to_list_empty. Qed.

Lemma truthy_get_subscript (d : dict) k :
  truthy (dict_get d k JNull) = true → ∃ v, d !! k = Some v ∧ truthy v = true.
Proof.
  unfold dict_get. destruct (d !! k) as [v|]; [eauto|done].
Qed.

Lemma dict_get_insert_ne (d : dict) k k' v dflt :
  k ≠ k' → dict_get (<[k:=v]> d) k' dflt = dict_get d k' dflt.
Proof. intros. unfold dict_get. by rewrite lookup_insert_ne. Qed.

(** * Facts about [src/App.py] *)

Section App1_facts.
Variables CLIENT_ID CLIENT_SECRET : option string.
Variable net : network.

Local Abbreviation refresh := (App1.refresh_access_token CLIENT_ID CLIENT_SECRET net).
Local Abbreviation get_access_token := (App1.get_access_token CLIENT_ID CLIENT_SECRET net).
Local Abbreviation request rt := (refresh_request1 CLIENT_ID CLIENT_SECRET rt).

Lemma load_tokens1_run w :
  App1.load_tokens w =
  match tokens_file w with
  | NoFile => (Ok None, w)
  | Unreadable => (Raise OSError, w)
  | Corrupt => (Raise JSONDecodeError, w)
  | Stored d => (Ok (Some d), w)
  end.
Proof.
  unfold App1.load_tokens, path_exists, json_load. run.
  destruct (tokens_file w) eqn:E; simpl; rewrite ?E; reflexivity.
Qed.

(** The refresh of [src/App.py], case by case. *)
Lemma refresh1_run rt w :
  refresh rt w =
  let w1 := logged (request rt) w in
  match net (List.length (calls w)) (request rt) with
  | NetFailure => (Raise RequestException, w1)
  | Answer r =>
      if is_error_status (status_code r) then (Raise (HTTPError (status_code r)), w1)
      else match json_body r with
           | None => (Raise JSONDecodeError, w1)
           | Some j =>
               match py_add (now w) (dict_get j "expires_in" (JInt 3500)) with
               | Raise e => (Raise e, w1)
               | Ok e =>
                   let j' := <["expires_at" := JInt e]> (<["refresh_token" := rt]> j) in
                   if disk_writable w then (Ok j', written j' w1)
                   else (Raise OSError, w1)
               end
           end
  end.
Proof.
  unfold App1.refresh_access_token, requests_post, send, raise_for_status,
    response_json, time_time, App1.save_tokens, json_dump, refresh_request1.
  run.
  destruct (net _ _) as [|r]; [done|].
  destruct (is_error_status _); [done|]. run.
  destruct (json_body r) as [j|]; [|done]. run.
  rewrite dict_get_insert_ne by done.
  destruct (py_add _ _); [|done]. run.
  by destruct (disk_writable w).
Qed.

Lemma refresh1_raise_keeps_store rt w e w' :
  refresh rt w = (Raise e, w') → tokens_file w' = tokens_file w.
Proof.
  rewrite refresh1_run. cbv zeta.
  repeat case_match; intros; simplify_eq; done.
Qed.

Lemma refresh1_calls rt w :
  calls (refresh rt w).2 = (calls w ++ [request rt])%list.
Proof.
  rewrite refresh1_run. cbv zeta. repeat case_match; done.
Qed.

Lemma get1_no_file w :
  tokens_file w = NoFile → get_access_token w = (Ok JNull, w).
Proof.
  intros H. unfold App1.get_access_token. run.
  rewrite load_tokens1_run, H. reflexivity.
Qed.

(** With a record in the store, [get_access_token] compares the clock with
    [expires_at - 60] and either uses the record or refreshes. *)
Lemma get1_stored_run t e w :
  tokens_file w = Stored t →
  dict_falsy t = false →
  py_sub (dict_get t "expires_at" (JInt 0)) 60 = Ok e →
  get_access_token w =
  if (now w >=? e)%Z then
    match t !! "refresh_token" with
    | None => (Raise (KeyError "refresh_token"), w)
    | Some rt =>
        match refresh rt w with
        | (Ok t', w') => (subscript t' "access_token", w')
        | (Raise x, w') => (Raise x, w')
        end
    end
  else (subscript t "access_token", w).
Proof.
  intros Hf Hd He. unfold App1.get_access_token. run.
  rewrite load_tokens1_run, Hf, Hd. unfold time_time. run. rewrite He.
  destruct (now w >=? e)%Z; run; [|done].
  unfold subscript at 1. destruct (t !! "refresh_token") as [rt|]; [|done].
  destruct (refresh rt w) as [[t'|x] w']; done.
Qed.

Lemma refresh1_call_fails rt w :
  call_fails (net (List.length (calls w)) (request rt)) = true →
  ∃ x, refresh rt w = (Raise x, logged (request rt) w).
Proof.
  rewrite refresh1_run. cbv zeta. unfold call_fails.
  destruct (net _ _) as [|r]; [eauto|].
  destruct (is_error_status _); [eauto|].
  destruct (json_body r); [done|eauto].
Qed.

(** A refresh that is answered with a good status and a JSON object whose
    [expires_in] is a number, with a writable disk: the merged dictionary
    is saved and returned. *)
Lemma refresh1_ok rt r j ttl w :
  net (List.length (calls w)) (request rt) = Answer r →
  is_error_status (status_code r) = false →
  json_body r = Some j →
  py_add (now w) (dict_get j "expires_in" (JInt 3500)) = Ok ttl →
  disk_writable w = true →
  refresh rt w
  = (Ok (refreshed rt ttl j), written (refreshed rt ttl j) (logged (request rt) w)).
Proof.
  intros Hn Hs Hj Ht Hd. rewrite refresh1_run. cbv zeta.
  by rewrite Hn, Hs, Hj, Ht, Hd.
Qed.

Lemma get1_refresh_persists t lim rt r j ttl w :
  tokens_file w = Stored t →
  py_sub (dict_get t "expires_at" (JInt 0)) 60 = Ok lim →
  (lim ≤ now w)%Z →
  t !! "refresh_token" = Some rt →
  net (List.length (calls w)) (request rt) = Answer r →
  is_error_status (status_code r) = false →
  json_body r = Some j →
  py_add (now w) (dict_get j "expires_in" (JInt 3500)) = Ok ttl →
  disk_writable w = true →
  get_access_token w
  = (subscript (refreshed rt ttl j) "access_token",
     written (refreshed rt ttl j) (logged (request rt) w)).
Proof.
  intros Hf Hl Hle Hrt Hn Hs Hj Ht Hd.
  rewrite (get1_stored_run t lim) by eauto using dict_falsy_false.
  destruct (Z.geb_spec (now w) lim); [|lia].
  rewrite Hrt. by erewrite refresh1_ok.
Qed.

Lemma get1_expired_calls t lim rt w :
  tokens_file w = Stored t →
  py_sub (dict_get t "expires_at" (JInt 0)) 60 = Ok lim →
  (lim ≤ now w)%Z →
  t !! "refresh_token" = Some rt →
  calls (get_access_token w).2 = (calls w ++ [request rt])%list.
Proof.
  intros Hf Hl Hle Hrt.
  rewrite (get1_stored_run t lim) by eauto using dict_falsy_false.
  destruct (Z.geb_spec (now w) lim); [|lia].
  rewrite Hrt. pose proof (refresh1_calls rt w) as Hc.
  by destruct (refresh rt w) as [[t'|x] w'].
Qed.

End App1_facts.

Section App1_callback.
Variables CLIENT_ID CLIENT_SECRET REDIRECT_URI : option string.
Variable net : network.

(** The code exchange of [src/App.py], when it succeeds. *)
Lemma callback1_ok req code r j e w :
  args req !! "code" = Some code →
  code ≠ "" →
  net (List.length (calls w))
    (exchange_request1 CLIENT_ID CLIENT_SECRET REDIRECT_URI code) = Answer r →
  is_error_status (status_code r) = false →
  json_body r = Some j →
  py_add (now w) (dict_get j "expires_in" (JInt 3500)) = Ok e →
  disk_writable w = true →
  tokens_file (App1.auth_callback CLIENT_ID CLIENT_SECRET REDIRECT_URI net req w).2
  = Stored (<["expires_at" := JInt e]> j).
Proof.
  intros Hc Hne Hn Hs Hj He Hd. unfold App1.auth_callback. rewrite Hc.
  destruct (String.eqb_spec code "") as [|_]; [done|].
  unfold requests_post, send, raise_for_status, response_json, time_time,
    App1.save_tokens, json_dump.
  run. fold (exchange_request1 CLIENT_ID CLIENT_SECRET REDIRECT_URI code).
  rewrite Hn, Hs. run. rewrite Hj. run. rewrite He. run. by rewrite Hd.
Qed.

End App1_callback.

(** * Facts about [src/app.py] *)

Section App2_facts.
Variables CLIENT_ID CLIENT_SECRET : string.
Variable int_of_str : string → option Z.
Variable py_repr : json → string.
Variable net : network.

Local Abbreviation refresh := (App2._refresh_access_token CLIENT_ID CLIENT_SECRET int_of_str net).
Local Abbreviation google_headers :=
  (App2._google_headers CLIENT_ID CLIENT_SECRET int_of_str py_repr net).
Local Abbreviation request rt := (refresh_request2 CLIENT_ID CLIENT_SECRET rt).

Lemma load_tokens2_run w :
  App2.load_tokens w =
  (Ok match tokens_file w with Stored d => d | _ => ∅ end, w).
Proof.
  unfold App2.load_tokens, path_exists, json_load. run.
  destruct (tokens_file w) eqn:E; simpl; rewrite ?E; reflexivity.
Qed.

(** The refresh of [src/app.py], case by case.  It never writes. *)
Lemma refresh2_run rt w :
  refresh rt w =
  let w1 := logged (request rt) w in
  match net (List.length (calls w)) (request rt) with
  | NetFailure => (Raise RequestException, w1)
  | Answer r =>
      if is_error_status (status_code r) then (Raise (HTTPError (status_code r)), w1)
      else match json_body r with
           | None => (Raise JSONDecodeError, w1)
           | Some j =>
               match py_int int_of_str (dict_get j "expires_in" (JInt 3600)) with
               | Raise e => (Raise e, w1)
               | Ok ttl =>
                   (Ok (<["expires_at" := JInt (now w + ttl - 60)]>
                          (<["refresh_token" := rt]> j)), w1)
               end
           end
  end.
Proof.
  unfold App2._refresh_access_token, requests_post, send, raise_for_status,
    response_json, time_time, refresh_request2.
  run.
  destruct (net _ _) as [|r]; [done|].
  destruct (is_error_status _); [done|]. run.
  destruct (json_body r) as [j|]; [|done]. run.
  rewrite dict_get_insert_ne by done.
  destruct (py_int _ _); done.
Qed.

Lemma refresh2_world rt w : (refresh rt w).2 = logged (request rt) w.
Proof. rewrite refresh2_run. cbv zeta. repeat case_match; done. Qed.

Lemma headers2_no_record w :
  (∀ t, tokens_file w ≠ Stored t) → google_headers w = (Ok None, w).
Proof.
  intros H. unfold App2._google_headers. run. rewrite load_tokens2_run.
  destruct (tokens_file w) as [| | |t] eqn:E; try by rewrite dict_falsy_empty.
  by destruct (H t).
Qed.

(** With a record in the store, [_google_headers] compares [expires_at]
    with the clock and either uses the record or refreshes and saves. *)
Lemma headers2_stored_run t e w :
  tokens_file w = Stored t →
  dict_falsy t = false →
  py_int int_of_str (dict_get t "expires_at" (JInt 0)) = Ok e →
  google_headers w =
  if (e <=? now w)%Z then
    if negb (truthy (dict_get t "refresh_token" JNull)) then (Ok None, w)
    else
      match refresh (dict_get t "refresh_token" JNull) w with
      | (Ok t', w') =>
          if disk_writable w' then (Ok (authorization2 py_repr t'), written t' w')
          else (Ok None, w')
      | (Raise _, w') => (Ok None, w')
      end
  else (Ok (authorization2 py_repr t), w).
Proof.
  intros Hf Hd He. unfold App2._google_headers. run.
  rewrite load_tokens2_run, Hf, Hd. rewrite He. unfold time_time. run.
  unfold authorization2.
  destruct (e <=? now w)%Z; run; [|by destruct (negb _)].
  destruct (negb (truthy (dict_get t "refresh_token" JNull))) eqn:Ht; run; [done|].
  apply negb_false_iff, truthy_get_subscript in Ht as (rt & Hrt & _).
  unfold subscript, dict_get. rewrite Hrt.
  destruct (refresh rt w) as [[t'|x] w']; [|done].
  unfold App2.save_tokens, json_dump. destruct (disk_writable w'); [|done].
  simpl. by destruct (negb _).
Qed.

Lemma refresh2_call_fails rt w :
  call_fails (net (List.length (calls w)) (request rt)) = true →
  ∃ x, refresh rt w = (Raise x, logged (request rt) w).
Proof.
  rewrite refresh2_run. cbv zeta. unfold call_fails.
  destruct (net _ _) as [|r]; [eauto|].
  destruct (is_error_status _); [eauto|].
  destruct (json_body r); [done|eauto].
Qed.

(** An expired record with a refresh token, and the refresh raises:
    absent, and the store is as before. *)
Lemma headers2_refresh_raises t e rt x w w' :
  tokens_file w = Stored t →
  py_int int_of_str (dict_get t "expires_at" (JInt 0)) = Ok e →
  (e ≤ now w)%Z →
  t !! "refresh_token" = Some rt →
  truthy rt = true →
  refresh rt w = (Raise x, w') →
  google_headers w = (Ok None, w') ∧ tokens_file w' = tokens_file w.
Proof.
  intros Hf He Hle Hrt Htr Hx.
  assert (dict_get t "refresh_token" JNull = rt) as Hg
    by (unfold dict_get; by rewrite Hrt).
  rewrite (headers2_stored_run t e) by eauto using dict_falsy_false.
  destruct (Z.leb_spec e (now w)); [|lia].
  rewrite Hg, Htr, Hx. simpl. split; [done|].
  pose proof (refresh2_world rt w) as Hw. rewrite Hx in Hw. simpl in Hw.
  by subst w'.
Qed.

Lemma refresh2_ok rt r j ttl w :
  net (List.length (calls w)) (request rt) = Answer r →
  is_error_status (status_code r) = false →
  json_body r = Some j →
  py_int int_of_str (dict_get j "expires_in" (JInt 3600)) = Ok ttl →
  refresh rt w
  = (Ok (refreshed rt (now w + ttl - 60) j), logged (request rt) w).
Proof.
  intros Hn Hs Hj Ht. rewrite refresh2_run. cbv zeta.
  by rewrite Hn, Hs, Hj, Ht.
Qed.

Lemma headers2_refresh_persists t e rt r j ttl w :
  tokens_file w = Stored t →
  py_int int_of_str (dict_get t "expires_at" (JInt 0)) = Ok e →
  (e ≤ now w)%Z →
  t !! "refresh_token" = Some rt →
  truthy rt = true →
  net (List.length (calls w)) (request rt) = Answer r →
  is_error_status (status_code r) = false →
  json_body r = Some j →
  py_int int_of_str (dict_get j "expires_in" (JInt 3600)) = Ok ttl →
  disk_writable w = true →
  google_headers w
  = (Ok (authorization2 py_repr (refreshed rt (now w + ttl - 60) j)),
     written (refreshed rt (now w + ttl - 60) j) (logged (request rt) w)).
Proof.
  intros Hf He Hle Hrt Htr Hn Hs Hj Ht Hd.
  assert (dict_get t "refresh_token" JNull = rt) as Hg
    by (unfold dict_get; by rewrite Hrt).
  rewrite (headers2_stored_run t e) by eauto using dict_falsy_false.
  destruct (Z.leb_spec e (now w)); [|lia].
  rewrite Hg, Htr. simpl. erewrite refresh2_ok by eauto. simpl.
  by rewrite Hd.
Qed.

Lemma headers2_expired_calls t e rt w :
  tokens_file w = Stored t →
  py_int int_of_str (dict_get t "expires_at" (JInt 0)) = Ok e →
  (e ≤ now w)%Z →
  t !! "refresh_token" = Some rt →
  truthy rt = true →
  calls (google_headers w).2 = (calls w ++ [request rt])%list.
Proof.
  intros Hf He Hle Hrt Htr.
  assert (dict_get t "refresh_token" JNull = rt) as Hg
    by (unfold dict_get; by rewrite Hrt).
  rewrite (headers2_stored_run t e) by eauto using dict_falsy_false.
  destruct (Z.leb_spec e (now w)); [|lia].
  rewrite Hg, Htr. simpl.
  pose proof (refresh2_world rt w) as Hw.
  destruct (refresh rt w) as [[t'|x] w1]; simpl in Hw; subst w1; [|done].
  by destruct (disk_writable _).
Qed.

End App2_facts.

Section App2_callback.
Variables CLIENT_ID CLIENT_SECRET REDIRECT_URI : string.
Variable int_of_str : string → option Z.
Variable str_of_exn : exn → string.
Variable net : network.

(** The code exchange of [src/app.py], when it succeeds. *)
Lemma exchange2_ok code r j ttl w :
  net (List.length (calls w))
    (exchange_request2 CLIENT_ID CLIENT_SECRET REDIRECT_URI code) = Answer r →
  is_error_status (status_code r) = false →
  json_body r = Some j →
  py_int int_of_str (dict_get j "expires_in" (JInt 3600)) = Ok ttl →
  App2._exchange_code_for_tokens CLIENT_ID CLIENT_SECRET REDIRECT_URI int_of_str net code w
  = (Ok (<["expires_at" := JInt (now w + ttl - 60)]> j),
     logged (exchange_request2 CLIENT_ID CLIENT_SECRET REDIRECT_URI code) w).
Proof.
  intros Hn Hs Hj Ht.
  unfold App2._exchange_code_for_tokens, requests_post, send, raise_for_status,
    response_json, time_time.
  run. fold (exchange_request2 CLIENT_ID CLIENT_SECRET REDIRECT_URI code).
  rewrite Hn, Hs. run. rewrite Hj. run. by rewrite Ht.
Qed.

Lemma callback2_ok req code r j ttl w :
  args req !! "code" = Some code →
  code ≠ "" →
  net (List.length (calls w))
    (exchange_request2 CLIENT_ID CLIENT_SECRET REDIRECT_URI code) = Answer r →
  is_error_status (status_code r) = false →
  json_body r = Some j →
  py_int int_of_str (dict_get j "expires_in" (JInt 3600)) = Ok ttl →
  disk_writable w = true →
  tokens_file
    (App2.auth_callback CLIENT_ID CLIENT_SECRET REDIRECT_URI int_of_str str_of_exn
       net req w).2
  = Stored (<["expires_at" := JInt (now w + ttl - 60)]> j).
Proof.
  intros Hc Hne Hn Hs Hj Ht Hd. unfold App2.auth_callback. rewrite Hc.
  destruct (String.eqb_spec code "") as [|_]; [done|].
  unfold try_except_as. run. erewrite exchange2_ok by eauto.
  unfold App2.save_tokens, json_dump. simpl. by rewrite Hd.
Qed.

End App2_callback.

(** * Facts about the Gmail handlers of [src/app.py] *)

Section App2_handlers.
Variables CLIENT_ID CLIENT_SECRET API_KEY : string.
Variable int_of_str : string → option Z.
Variable py_repr : json → string.
Variable net : network.

Local Abbreviation google_headers :=
  (App2._google_headers CLIENT_ID CLIENT_SECRET int_of_str py_repr net).
Local Abbreviation gmail_unread :=
  (App2.gmail_unread CLIENT_ID CLIENT_SECRET API_KEY int_of_str py_repr net).
Local Abbreviation gmail_message :=
  (App2.gmail_message CLIENT_ID CLIENT_SECRET API_KEY int_of_str py_repr net).

Lemma require_api_key2_accepted func req :
  key_accepted API_KEY req = true →
  App2.require_api_key API_KEY func req = func req.
Proof.
  unfold key_accepted, App2.require_api_key.
  destruct (String.eqb API_KEY ""); simpl; [done|].
  by intros ->.
Qed.

(** A record that has not expired is used as it is. *)
Lemma headers2_fresh t e w :
  tokens_file w = Stored t →
  dict_falsy t = false →
  py_int int_of_str (dict_get t "expires_at" (JInt 0)) = Ok e →
  (now w < e)%Z →
  google_headers w = (Ok (authorization2 py_repr t), w).
Proof.
  intros Hf Hd He Hlt. rewrite (headers2_stored_run _ _ _ _ _ t e) by done.
  by destruct (Z.leb_spec e (now w)); [lia|].
Qed.

(** [gmail_message] with a usable record: one call, whose answer is
    relayed whatever its status. *)
Lemma gmail_message2_relays req t e hdrs mid r b w :
  key_accepted API_KEY req = true →
  tokens_file w = Stored t →
  py_int int_of_str (dict_get t "expires_at" (JInt 0)) = Ok e →
  (now w < e)%Z →
  authorization2 py_repr t = Some hdrs →
  args req !! "id" = Some mid →
  mid ≠ "" →
  net (List.length (calls w)) (message_get_request hdrs mid) = Answer r →
  json_body r = Some b →
  gmail_message req w
  = (Ok (mk_flask_response (BJson b) (status_code r) None),
     logged (message_get_request hdrs mid) w).
Proof.
  intros Hk Hf He Hlt Ha Hid Hne Hn Hb.
  assert (dict_falsy t = false) as Hd.
  { unfold authorization2, dict_get in Ha.
    destruct (t !! "access_token") eqn:E; [eauto using dict_falsy_false | done]. }
  unfold App2.gmail_message. rewrite require_api_key2_accepted by done.
  run. rewrite (headers2_fresh t e), Ha, Hid by done.
  destruct (String.eqb_spec mid "") as [|_]; [done|].
  unfold requests_get, send, App2.relay, response_json. run.
  fold (message_get_request hdrs mid). rewrite Hn. run. by rewrite Hb.
Qed.

(** X1.  [GET /gmail/unread] of [src/app.py], with a usable credential in
    the store whose access token the Gmail API rejects with 401: the
    handler makes exactly three calls, the rejected one, one refresh and
    one retry with the new access token, saves the refreshed credential and
    relays the status and body of the retry. *)
Theorem X1_gmail_unread_refreshes_and_retries_once req t e hdrs rt r1 r2 j ttl r3 b w :
  key_accepted API_KEY req = true →
  tokens_file w = Stored t →
  py_int int_of_str (dict_get t "expires_at" (JInt 0)) = Ok e →
  (now w < e)%Z →
  authorization2 py_repr t = Some hdrs →
  t !! "refresh_token" = Some rt →
  truthy rt = true →
  net (List.length (calls w)) (unread_request hdrs req) = Answer r1 →
  status_code r1 = 401%Z →
  net (S (List.length (calls w))) (refresh_request2 CLIENT_ID CLIENT_SECRET rt)
    = Answer r2 →
  is_error_status (status_code r2) = false →
  json_body r2 = Some j →
  py_int int_of_str (dict_get j "expires_in" (JInt 3600)) = Ok ttl →
  (60 < ttl)%Z →
  disk_writable w = true →
  let t' := refreshed rt (now w + ttl - 60) j in
  let hdrs' := default [] (authorization2 py_repr t') in
  net (S (S (List.length (calls w)))) (unread_request hdrs' req) = Answer r3 →
  json_body r3 = Some b →
  gmail_unread req w
  = (Ok (mk_flask_response (BJson b) (status_code r3) None),
     mk_world (Stored t') true (now w)
       (calls w ++ [unread_request hdrs req;
                    refresh_request2 CLIENT_ID CLIENT_SECRET rt;
                    unread_request hdrs' req])).
Proof.
  intros Hk Hf He Hlt Ha Hrt Htr Hn1 Hs1 Hn2 Hs2 Hj Httl Hlong Hd t' hdrs' Hn3 Hb.
  assert (dict_falsy t = false) as Hdt by eauto using dict_falsy_false.
  assert (dict_get t "refresh_token" JNull = rt) as Hg
    by (unfold dict_get; by rewrite Hrt).
  unfold App2.gmail_unread. rewrite require_api_key2_accepted by done.
  run. rewrite (headers2_fresh t e), Ha by done.
  unfold requests_get, send at 1. run. fold (unread_request hdrs req).
  rewrite Hn1. run. rewrite Hs1. simpl.
  rewrite load_tokens2_run. simpl. rewrite Hf, Hg, Htr.
  unfold subscript. rewrite Hrt. simpl.
  set (w1 := logged (unread_request hdrs req) w).
  assert (List.length (calls w1) = S (List.length (calls w))) as Hlen1.
  { unfold w1, logged. simpl. rewrite length_app. simpl. lia. }
  rewrite (refresh2_ok _ _ _ _ rt r2 j ttl w1) by (rewrite ?Hlen1; done).
  simpl. unfold App2.save_tokens, json_dump. simpl. rewrite Hd.
  set (w2 := written _ _).
  assert (tokens_file w2 = Stored t') as Hf2 by reflexivity.
  rewrite (headers2_fresh t' (now w + ttl - 60) w2); try done.
  - unfold send. fold hdrs'. fold (unread_request hdrs' req).
    assert (List.length (calls w2) = S (S (List.length (calls w)))) as Hlen2.
    { unfold w2, written, w1, logged. simpl. rewrite !length_app. simpl. lia. }
    rewrite Hlen2, Hn3. unfold App2.relay, response_json. run. rewrite Hb.
    unfold w2, written, w1, logged. simpl. rewrite Hd.
    by rewrite <- !app_assoc.
  - eapply dict_falsy_false, refreshed_refresh_token.
  - unfold t', dict_get. by rewrite refreshed_expires_at.
  - simpl. lia.
Qed.

(** X2.  The same request when the refresh fails (in transit, with an
    error status, or with a body that is not JSON): two calls are made, the
    rejected one and the refresh, the first answer is relayed with its
    status 401, and the store is as before. *)
Theorem X2_gmail_unread_relays_401_when_refresh_fails req t e hdrs rt r1 b w :
  key_accepted API_KEY req = true →
  tokens_file w = Stored t →
  py_int int_of_str (dict_get t "expires_at" (JInt 0)) = Ok e →
  (now w < e)%Z →
  authorization2 py_repr t = Some hdrs →
  t !! "refresh_token" = Some rt →
  truthy rt = true →
  net (List.length (calls w)) (unread_request hdrs req) = Answer r1 →
  status_code r1 = 401%Z →
  json_body r1 = Some b →
  call_fails (net (S (List.length (calls w)))
                (refresh_request2 CLIENT_ID CLIENT_SECRET rt)) = true →
  gmail_unread req w
  = (Ok (mk_flask_response (BJson b) 401 None),
     logged (refresh_request2 CLIENT_ID CLIENT_SECRET rt)
       (logged (unread_request hdrs req) w)).
Proof.
  intros Hk Hf He Hlt Ha Hrt Htr Hn1 Hs1 Hb Hfail.
  assert (dict_falsy t = false) as Hdt by eauto using dict_falsy_false.
  assert (dict_get t "refresh_token" JNull = rt) as Hg
    by (unfold dict_get; by rewrite Hrt).
  unfold App2.gmail_unread. rewrite require_api_key2_accepted by done.
  run. rewrite (headers2_fresh t e), Ha by done.
  unfold requests_get, send at 1. run. fold (unread_request hdrs req).
  rewrite Hn1. run. rewrite Hs1. simpl.
  rewrite load_tokens2_run. simpl. rewrite Hf, Hg, Htr.
  unfold subscript. rewrite Hrt. simpl.
  set (w1 := logged (unread_request hdrs req) w).
  assert (List.length (calls w1) = S (List.length (calls w))) as Hlen1.
  { unfold w1, logged. simpl. rewrite length_app. simpl. lia. }
  destruct (refresh2_call_fails CLIENT_ID CLIENT_SECRET int_of_str net rt w1)
    as [x Hx]; [by rewrite Hlen1|].
  rewrite Hx. simpl. unfold App2.relay, response_json. run.
  by rewrite Hb, Hs1.
Qed.

End App2_handlers.

(** * The claims *)

(** ** C1: the caller API key *)

(** C1, as stated, fails on [src/App.py]: with [ACTION_API_KEY] unset the
    check is not skipped, the request to a key-protected endpoint is
    rejected with Forbidden although a usable credential is stored. *)
Lemma C1_unset_key_rejects_in_App1 :
  App1.require_api_key None bare_request = false
  ∧ App1.gmail_unread None None None no_repr unreachable bare_request
      (world_with (Stored fresh_record))
    = (Ok App1._forbidden, world_with (Stored fresh_record)).
Proof. split; reflexivity. Qed.

(** C1, amended.  In [src/app.py] an empty [ACTION_API_KEY] skips the check:
    the decorated handler is the handler.  In [src/App.py] an empty or unset
    [ACTION_API_KEY] rejects every request to a key-protected endpoint with
    Forbidden.  In both files, with a non-empty secret, a request whose
    [x-api-key] header is missing or differs from it is rejected with
    Forbidden, and nothing else happens. *)
Theorem C1_api_key_guard :
  (∀ func req, App2.require_api_key "" func req = func req)
  ∧ (∀ API_KEY func req w,
       API_KEY ≠ "" →
       headers req !! "x-api-key" ≠ Some API_KEY →
       App2.require_api_key API_KEY func req w = (Ok App2._forbidden, w))
  ∧ (∀ API_KEY req,
       API_KEY = None ∨ API_KEY = Some "" →
       App1.require_api_key API_KEY req = false)
  ∧ (∀ key req,
       headers req !! "x-api-key" ≠ Some key →
       App1.require_api_key (Some key) req = false)
  ∧ (∀ CLIENT_ID CLIENT_SECRET API_KEY py_repr net req w,
       App1.require_api_key API_KEY req = false →
       App1.gmail_unread CLIENT_ID CLIENT_SECRET API_KEY py_repr net req w
         = (Ok App1._forbidden, w)
       ∧ App1.gmail_message CLIENT_ID CLIENT_SECRET API_KEY py_repr net req w
         = (Ok App1._forbidden, w)).
Proof.
  split; [|split; [|split; [|split]]].
  - reflexivity.
  - intros key func req w Hkey Hhdr. unfold App2.require_api_key.
    destruct (String.eqb_spec key "") as [->|_]; [done|]. simpl.
    destruct (headers req !! "x-api-key") as [given|] eqn:Hg; simpl.
    + destruct (String.eqb_spec given key) as [->|_]; [done|]. reflexivity.
    + destruct key; [done|reflexivity].
  - intros key req [->| ->]; reflexivity.
  - intros key req Hhdr. unfold App1.require_api_key.
    destruct (String.eqb key ""); [done|].
    destruct (headers req !! "x-api-key") as [given|]; [|done].
    destruct (String.eqb_spec given key) as [->|_]; done.
  - intros CLIENT_ID CLIENT_SECRET API_KEY py_repr net req w H.
    unfold App1.gmail_unread, App1.gmail_message. by rewrite H.
Qed.

Lemma C1_api_key_guard_witness :
  App2.require_api_key "k3y" (λ _, mret App2._need_auth) bare_request
      (world_with NoFile)
    = (Ok App2._forbidden, world_with NoFile)
  ∧ App1.require_api_key (Some "") bare_request = false
  ∧ App1.require_api_key (Some "k3y") bare_request = false
  ∧ App1.gmail_message None None (Some "k3y") no_repr unreachable bare_request
      (world_with NoFile)
    = (Ok App1._forbidden, world_with NoFile).
Proof.
  destruct C1_api_key_guard as (_ & H2 & H3 & H4 & H5).
  split; [|split; [|split]].
  - apply H2; [discriminate | vm_compute; discriminate].
  - apply H3. right. reflexivity.
  - apply H4. vm_compute. discriminate.
  - apply H5. reflexivity.
Defined.

(** ** C2: the contract of [get_access_token] / [_google_headers] *)

(** C2, as stated, fails.  In [src/app.py] an expired record without a
    refresh token leads to no refresh attempt at all.  In [src/App.py] a
    refresh that the token endpoint answers with status 400 makes
    [get_access_token] raise. *)
Lemma C2_refresh_contract_fails :
  App2._google_headers "" "" no_int no_repr unreachable
      (world_with (Stored stale_record_without_refresh_token))
    = (Ok None, world_with (Stored stale_record_without_refresh_token))
  ∧ calls (world_with (Stored stale_record_without_refresh_token)) = []
  ∧ (App1.get_access_token None None (answering (mk_response 400 "" None))
       (world_with (Stored stale_record))).1
    = Raise (HTTPError 400).
Proof. repeat split; vm_compute; reflexivity. Qed.

(** C2, amended.  (1) With no token file both files return absent and do
    nothing else.  (2) In [src/app.py], for an expired record that holds a
    refresh token, exactly one call is made, the refresh, and whenever the
    refresh raises the result is absent, nothing is raised and the store is
    as before; for an expired record without a refresh token the result is
    absent and no call is made.  (3) For a record whose [expires_at] lies
    more than the 60 second margin ahead ([src/App.py]), or just ahead
    ([src/app.py], where the margin is already in the stored value), the
    stored access token is returned and no call is made. *)
Theorem C2_get_valid_access_token :
  (∀ CLIENT_ID CLIENT_SECRET net w,
     tokens_file w = NoFile →
     App1.get_access_token CLIENT_ID CLIENT_SECRET net w = (Ok JNull, w))
  ∧ (∀ CLIENT_ID CLIENT_SECRET int_of_str py_repr net w,
       tokens_file w = NoFile →
       App2._google_headers CLIENT_ID CLIENT_SECRET int_of_str py_repr net w
         = (Ok None, w))
  ∧ (∀ CLIENT_ID CLIENT_SECRET int_of_str py_repr net t e rt w,
       tokens_file w = Stored t →
       py_int int_of_str (dict_get t "expires_at" (JInt 0)) = Ok e →
       (e ≤ now w)%Z →
       t !! "refresh_token" = Some rt →
       truthy rt = true →
       let out := App2._google_headers CLIENT_ID CLIENT_SECRET int_of_str py_repr net w in
       calls out.2 = (calls w ++ [refresh_request2 CLIENT_ID CLIENT_SECRET rt])%list
       ∧ ∀ x w',
           App2._refresh_access_token CLIENT_ID CLIENT_SECRET int_of_str net rt w
             = (Raise x, w') →
           out = (Ok None, w') ∧ tokens_file w' = tokens_file w)
  ∧ (∀ CLIENT_ID CLIENT_SECRET int_of_str py_repr net t e w,
       tokens_file w = Stored t →
       py_int int_of_str (dict_get t "expires_at" (JInt 0)) = Ok e →
       (e ≤ now w)%Z →
       truthy (dict_get t "refresh_token" JNull) = false →
       App2._google_headers CLIENT_ID CLIENT_SECRET int_of_str py_repr net w
         = (Ok None, w))
  ∧ (∀ CLIENT_ID CLIENT_SECRET net t e tok w,
       tokens_file w = Stored t →
       t !! "expires_at" = Some (JInt e) →
       (now w + 60 < e)%Z →
       t !! "access_token" = Some tok →
       App1.get_access_token CLIENT_ID CLIENT_SECRET net w = (Ok tok, w))
  ∧ (∀ CLIENT_ID CLIENT_SECRET int_of_str py_repr net t e tok w,
       tokens_file w = Stored t →
       py_int int_of_str (dict_get t "expires_at" (JInt 0)) = Ok e →
       (now w < e)%Z →
       t !! "access_token" = Some tok →
       truthy tok = true →
       App2._google_headers CLIENT_ID CLIENT_SECRET int_of_str py_repr net w
         = (Ok (Some [("Authorization", "Bearer " ++ py_str py_repr tok)]), w)).
Proof.
  split; [|split; [|split; [|split; [|split]]]].
  - intros. by apply get1_no_file.
  - intros * H. apply headers2_no_record. intros t. by rewrite H.
  - intros * Hf He Hle Hrt Htr. cbv zeta.
    assert (dict_get t "refresh_token" JNull = rt) as Hg
      by (unfold dict_get; by rewrite Hrt).
    rewrite (headers2_stored_run _ _ _ _ _ t e) by eauto using dict_falsy_false.
    destruct (Z.leb_spec e (now w)); [|lia].
    rewrite Hg, Htr. simpl.
    pose proof (refresh2_world CLIENT_ID CLIENT_SECRET int_of_str net rt w) as Hw.
    destruct (App2._refresh_access_token _ _ _ _ rt w) as [[t'|x] w1];
      simpl in Hw; subst w1; simpl.
    + split; [by destruct (disk_writable w) | intros; discriminate].
    + split; [reflexivity|]. intros x' w' [= <- <-]. done.
  - intros * Hf He Hle Hrt.
    destruct (decide (t = ∅)) as [->|Hne].
    + unfold App2._google_headers. run.
      by rewrite load_tokens2_run, Hf, dict_falsy_empty.
    + rewrite (headers2_stored_run _ _ _ _ _ t e); auto.
      * destruct (Z.leb_spec e (now w)); [|lia]. by rewrite Hrt.
      * unfold dict_falsy. destruct (map_to_list t) eqn:E; [|done].
        by apply map_to_list_empty_iff in E.
  - intros * Hf He Hlt Htok.
    rewrite (get1_stored_run _ _ _ t (e - 60)) by
      (eauto using dict_falsy_false; unfold dict_get; by rewrite He).
    destruct (Z.geb_spec (now w) (e - 60)); [lia|].
    unfold subscript. by rewrite Htok.
  - intros * Hf He Hlt Htok Htr.
    rewrite (headers2_stored_run _ _ _ _ _ t e) by eauto using dict_falsy_false.
    destruct (Z.leb_spec e (now w)); [lia|].
    unfold authorization2, dict_get. by rewrite Htok, Htr.
Qed.

Lemma C2_get_valid_access_token_witness :
  App1.get_access_token None None unreachable (world_with NoFile)
    = (Ok JNull, world_with NoFile)
  ∧ App2._google_headers "" "" no_int no_repr unreachable (world_with NoFile)
    = (Ok None, world_with NoFile)
  ∧ App2._google_headers "" "" no_int no_repr unreachable
      (world_with (Stored stale_record))
    = (Ok None,
       logged (refresh_request2 "" "" (JStr "rt0")) (world_with (Stored stale_record)))
  ∧ App2._google_headers "" "" no_int no_repr unreachable
      (world_with (Stored stale_record_without_refresh_token))
    = (Ok None, world_with (Stored stale_record_without_refresh_token))
  ∧ App1.get_access_token None None unreachable (world_with (Stored fresh_record))
    = (Ok (JStr "at0"), world_with (Stored fresh_record))
  ∧ App2._google_headers "" "" no_int no_repr unreachable
      (world_with (Stored fresh_record))
    = (Ok (Some [("Authorization", "Bearer at0")]), world_with (Stored fresh_record)).
Proof.
  destruct C2_get_valid_access_token as (H1 & H2 & H3 & H4 & H5 & H6).
  split; [|split; [|split; [|split; [|split]]]].
  - apply H1. reflexivity.
  - apply H2. reflexivity.
  - refine (proj1 (proj2 (H3 "" "" no_int no_repr unreachable stale_record 0%Z
                            (JStr "rt0") (world_with (Stored stale_record))
                            _ _ _ _ _) RequestException _ _)).
    + reflexivity.
    + reflexivity.
    + vm_compute. discriminate.
    + reflexivity.
    + reflexivity.
    + reflexivity.
  - apply (H4 "" "" no_int no_repr unreachable
             stale_record_without_refresh_token 0%Z).
    + reflexivity.
    + reflexivity.
    + vm_compute. discriminate.
    + reflexivity.
  - apply (H5 None None unreachable fresh_record 5000%Z).
    + reflexivity.
    + reflexivity.
    + vm_compute. reflexivity.
    + reflexivity.
  - apply (H6 "" "" no_int no_repr unreachable fresh_record 5000%Z (JStr "at0")).
    + reflexivity.
    + reflexivity.
    + vm_compute. reflexivity.
    + reflexivity.
    + reflexivity.
Defined.

(** ** C3: a failing refresh and the store *)

(** C3, as stated, fails in both files: a refresh answered with status 200
    and a JSON object without [access_token] is not recognised as a failure.
    The answer is written over the stored record, whose access token is
    lost, and only then is the result absent ([src/app.py]) or a [KeyError]
    ([src/App.py]). *)
Lemma C3_missing_access_token_overwrites_store :
  App2._google_headers "" "" no_int no_repr (granting ∅)
      (world_with (Stored stale_record))
    = (Ok None,
       written (<["expires_at" := JInt 4540]> (<["refresh_token" := JStr "rt0"]> ∅))
         (logged (refresh_request2 "" "" (JStr "rt0"))
            (world_with (Stored stale_record))))
  ∧ App1.get_access_token None None (granting ∅) (world_with (Stored stale_record))
    = (Raise (KeyError "access_token"),
       written (<["expires_at" := JInt 4500]> (<["refresh_token" := JStr "rt0"]> ∅))
         (logged (refresh_request1 None None (JStr "rt0"))
            (world_with (Stored stale_record))))
  ∧ stale_record !! "access_token" = Some (JStr "at0")
  ∧ (<["expires_at" := JInt 4540]> (<["refresh_token" := JStr "rt0"]> ∅) : dict)
      !! "access_token" = None.
Proof. repeat split; vm_compute; reflexivity. Qed.

(** C3, amended.  A refresh whose call fails in transit, is answered with a
    4xx or 5xx status, or is answered with a body that is not JSON, raises
    in both files, and whenever the refresh raises the store is as before.
    In [src/app.py], where the caller saves, [_google_headers] then returns
    absent and leaves the store as it was. *)
Theorem C3_failed_refresh_keeps_store :
  (∀ CLIENT_ID CLIENT_SECRET net rt w,
     call_fails (net (List.length (calls w))
                   (refresh_request1 CLIENT_ID CLIENT_SECRET rt)) = true →
     ∃ x w',
       App1.refresh_access_token CLIENT_ID CLIENT_SECRET net rt w = (Raise x, w')
       ∧ tokens_file w' = tokens_file w)
  ∧ (∀ CLIENT_ID CLIENT_SECRET net rt w x w',
       App1.refresh_access_token CLIENT_ID CLIENT_SECRET net rt w = (Raise x, w') →
       tokens_file w' = tokens_file w)
  ∧ (∀ CLIENT_ID CLIENT_SECRET int_of_str net rt w,
       call_fails (net (List.length (calls w))
                     (refresh_request2 CLIENT_ID CLIENT_SECRET rt)) = true →
       ∃ x w',
         App2._refresh_access_token CLIENT_ID CLIENT_SECRET int_of_str net rt w
           = (Raise x, w')
         ∧ tokens_file w' = tokens_file w)
  ∧ (∀ CLIENT_ID CLIENT_SECRET int_of_str py_repr net t e rt w,
       tokens_file w = Stored t →
       py_int int_of_str (dict_get t "expires_at" (JInt 0)) = Ok e →
       (e ≤ now w)%Z →
       t !! "refresh_token" = Some rt →
       truthy rt = true →
       call_fails (net (List.length (calls w))
                     (refresh_request2 CLIENT_ID CLIENT_SECRET rt)) = true →
       ∃ w',
         App2._google_headers CLIENT_ID CLIENT_SECRET int_of_str py_repr net w
           = (Ok None, w')
         ∧ tokens_file w' = tokens_file w).
Proof.
  split; [|split; [|split]].
  - intros * H. destruct (refresh1_call_fails _ _ _ _ _ H) as [x Hx]. eauto.
  - intros *. apply refresh1_raise_keeps_store.
  - intros * H. destruct (refresh2_call_fails _ _ int_of_str _ _ _ H) as [x Hx]. eauto.
  - intros * Hf He Hle Hrt Htr H.
    destruct (refresh2_call_fails _ _ int_of_str _ _ _ H) as [x Hx].
    eexists. eapply headers2_refresh_raises; eauto.
Qed.

Lemma C3_failed_refresh_keeps_store_witness :
  (∃ x w',
     App1.refresh_access_token None None (answering (mk_response 503 "" None))
       (JStr "rt0") (world_with (Stored stale_record)) = (Raise x, w')
     ∧ tokens_file w' = Stored stale_record)
  ∧ tokens_file
      (logged (refresh_request1 None None (JStr "rt0")) (world_with (Stored stale_record)))
    = Stored stale_record
  ∧ (∃ x w',
       App2._refresh_access_token "" "" no_int unreachable
         (JStr "rt0") (world_with (Stored stale_record)) = (Raise x, w')
       ∧ tokens_file w' = Stored stale_record)
  ∧ (∃ w',
       App2._google_headers "" "" no_int no_repr (answering (mk_response 200 "<html>" None))
         (world_with (Stored stale_record)) = (Ok None, w')
       ∧ tokens_file w' = Stored stale_record).
Proof.
  destruct C3_failed_refresh_keeps_store as (H1 & H2 & H3 & H4).
  split; [|split; [|split]].
  - apply (H1 None None (answering (mk_response 503 "" None)) (JStr "rt0")
             (world_with (Stored stale_record))).
    reflexivity.
  - apply (H2 None None unreachable (JStr "rt0") (world_with (Stored stale_record))
             RequestException).
    reflexivity.
  - apply (H3 "" "" no_int unreachable (JStr "rt0") (world_with (Stored stale_record))).
    reflexivity.
  - apply (H4 "" "" no_int no_repr (answering (mk_response 200 "<html>" None))
             stale_record 0%Z (JStr "rt0") (world_with (Stored stale_record))).
    + reflexivity.
    + reflexivity.
    + vm_compute. discriminate.
    + reflexivity.
    + reflexivity.
    + reflexivity.
Defined.

(** ** C4: a refresh answer without [refresh_token] *)


(** C4.  The stored record holds the refresh token [rt] and has expired; the
    refresh succeeds and its answer [j] has no [refresh_token].  Then the
    record in the store afterwards holds [rt] as its refresh token.  In both
    files. *)
Theorem C4_refresh_token_carried_forward :
  (∀ CLIENT_ID CLIENT_SECRET net t lim rt r j ttl w,
     tokens_file w = Stored t →
     py_sub (dict_get t "expires_at" (JInt 0)) 60 = Ok lim →
     (lim ≤ now w)%Z →
     t !! "refresh_token" = Some rt →
     net (List.length (calls w)) (refresh_request1 CLIENT_ID CLIENT_SECRET rt) = Answer r →
     is_error_status (status_code r) = false →
     json_body r = Some j →
     j !! "refresh_token" = None →
     py_add (now w) (dict_get j "expires_in" (JInt 3500)) = Ok ttl →
     disk_writable w = true →
     ∃ t',
       tokens_file (App1.get_access_token CLIENT_ID CLIENT_SECRET net w).2 = Stored t'
       ∧ t' !! "refresh_token" = Some rt)
  ∧ (∀ CLIENT_ID CLIENT_SECRET int_of_str py_repr net t e rt r j ttl w,
       tokens_file w = Stored t →
       py_int int_of_str (dict_get t "expires_at" (JInt 0)) = Ok e →
       (e ≤ now w)%Z →
       t !! "refresh_token" = Some rt →
       truthy rt = true →
       net (List.length (calls w)) (refresh_request2 CLIENT_ID CLIENT_SECRET rt) = Answer r →
       is_error_status (status_code r) = false →
       json_body r = Some j →
       j !! "refresh_token" = None →
       py_int int_of_str (dict_get j "expires_in" (JInt 3600)) = Ok ttl →
       disk_writable w = true →
       ∃ t',
         tokens_file
           (App2._google_headers CLIENT_ID CLIENT_SECRET int_of_str py_repr net w).2
         = Stored t'
         ∧ t' !! "refresh_token" = Some rt).
Proof.
  split.
  - intros * Hf Hl Hle Hrt Hn Hs Hj _ Ht Hd.
    erewrite get1_refresh_persists by eauto. simpl.
    eauto using refreshed_refresh_token.
  - intros * Hf He Hle Hrt Htr Hn Hs Hj _ Ht Hd.
    erewrite headers2_refresh_persists by eauto. simpl.
    eauto using refreshed_refresh_token.
Qed.

Lemma C4_refresh_token_carried_forward_witness :
  (∃ t',
     tokens_file
       (App1.get_access_token None None (granting {["access_token" := JStr "at1"]})
          (world_with (Stored stale_record))).2 = Stored t'
     ∧ t' !! "refresh_token" = Some (JStr "rt0"))
  ∧ (∃ t',
       tokens_file
         (App2._google_headers "" "" no_int no_repr
            (granting {["access_token" := JStr "at1"]})
            (world_with (Stored stale_record))).2 = Stored t'
       ∧ t' !! "refresh_token" = Some (JStr "rt0")).
Proof.
  destruct C4_refresh_token_carried_forward as (H1 & H2).
  split.
  - apply (H1 None None (granting {["access_token" := JStr "at1"]}) stale_record
             (-60)%Z (JStr "rt0") (mk_response 200 "" (Some {["access_token" := JStr "at1"]}))
             {["access_token" := JStr "at1"]} 4500%Z (world_with (Stored stale_record)));
      try reflexivity.
    vm_compute. discriminate.
  - apply (H2 "" "" no_int no_repr (granting {["access_token" := JStr "at1"]}) stale_record
             0%Z (JStr "rt0") (mk_response 200 "" (Some {["access_token" := JStr "at1"]}))
             {["access_token" := JStr "at1"]} 3600%Z (world_with (Stored stale_record)));
      try reflexivity.
    vm_compute. discriminate.
Defined.

(** ** C9: the refresh token of the answer is dropped *)

(** C9.  Every successful refresh persists, as [refresh_token], the refresh
    token it was called with.  A [refresh_token] that the answer [j] itself
    carries is overwritten: if it differs from the one sent, it is neither
    in the dictionary returned nor in the store afterwards.  In
    [src/App.py] the refresh itself saves; in [src/app.py]
    [_google_headers] saves what the refresh returns. *)
Theorem C9_refresh_keeps_sent_refresh_token :
  (∀ CLIENT_ID CLIENT_SECRET net rt r j ttl w,
     net (List.length (calls w)) (refresh_request1 CLIENT_ID CLIENT_SECRET rt) = Answer r →
     is_error_status (status_code r) = false →
     json_body r = Some j →
     py_add (now w) (dict_get j "expires_in" (JInt 3500)) = Ok ttl →
     disk_writable w = true →
     ∃ t' w',
       App1.refresh_access_token CLIENT_ID CLIENT_SECRET net rt w = (Ok t', w')
       ∧ tokens_file w' = Stored t'
       ∧ t' !! "refresh_token" = Some rt
       ∧ ∀ rt', j !! "refresh_token" = Some rt' → rt' ≠ rt →
                t' !! "refresh_token" ≠ Some rt')
  ∧ (∀ CLIENT_ID CLIENT_SECRET int_of_str net rt r j ttl w,
       net (List.length (calls w)) (refresh_request2 CLIENT_ID CLIENT_SECRET rt) = Answer r →
       is_error_status (status_code r) = false →
       json_body r = Some j →
       py_int int_of_str (dict_get j "expires_in" (JInt 3600)) = Ok ttl →
       ∃ t' w',
         App2._refresh_access_token CLIENT_ID CLIENT_SECRET int_of_str net rt w
           = (Ok t', w')
         ∧ t' !! "refresh_token" = Some rt
         ∧ ∀ rt', j !! "refresh_token" = Some rt' → rt' ≠ rt →
                  t' !! "refresh_token" ≠ Some rt')
  ∧ (∀ CLIENT_ID CLIENT_SECRET int_of_str py_repr net t e rt r j ttl w,
       tokens_file w = Stored t →
       py_int int_of_str (dict_get t "expires_at" (JInt 0)) = Ok e →
       (e ≤ now w)%Z →
       t !! "refresh_token" = Some rt →
       truthy rt = true →
       net (List.length (calls w)) (refresh_request2 CLIENT_ID CLIENT_SECRET rt) = Answer r →
       is_error_status (status_code r) = false →
       json_body r = Some j →
       py_int int_of_str (dict_get j "expires_in" (JInt 3600)) = Ok ttl →
       disk_writable w = true →
       ∃ t',
         tokens_file
           (App2._google_headers CLIENT_ID CLIENT_SECRET int_of_str py_repr net w).2
         = Stored t'
         ∧ t' !! "refresh_token" = Some rt
         ∧ ∀ rt', j !! "refresh_token" = Some rt' → rt' ≠ rt →
                  t' !! "refresh_token" ≠ Some rt').
Proof.
  assert (∀ rt e (j : dict) rt',
            rt' ≠ rt → refreshed rt e j !! "refresh_token" ≠ Some rt') as Hdrop.
  { intros rt e j rt' Hne. rewrite refreshed_refresh_token. congruence. }
  split; [|split].
  - intros * Hn Hs Hj Ht Hd. do 2 eexists.
    split; [by eapply refresh1_ok|].
    split; [reflexivity|]. split; [apply refreshed_refresh_token | eauto].
  - intros * Hn Hs Hj Ht. do 2 eexists.
    split; [by eapply refresh2_ok|].
    split; [apply refreshed_refresh_token | eauto].
  - intros * Hf He Hle Hrt Htr Hn Hs Hj Ht Hd.
    erewrite headers2_refresh_persists by eauto. simpl.
    eexists. split; [reflexivity|].
    split; [apply refreshed_refresh_token | eauto].
Qed.

(** The answer used in the witness of C9: it carries a refresh token of its
    own, which differs from the stored one. *)
Lemma C9_refresh_keeps_sent_refresh_token_witness :
  (∃ t' w',
     App1.refresh_access_token None None
       (granting (<["refresh_token" := JStr "rt1"]> {["access_token" := JStr "at1"]}))
       (JStr "rt0") (world_with (Stored stale_record)) = (Ok t', w')
     ∧ tokens_file w' = Stored t'
     ∧ t' !! "refresh_token" = Some (JStr "rt0")
     ∧ ∀ rt',
         (<["refresh_token" := JStr "rt1"]> {["access_token" := JStr "at1"]} : dict)
           !! "refresh_token" = Some rt' →
         rt' ≠ JStr "rt0" → t' !! "refresh_token" ≠ Some rt')
  ∧ (∃ t',
       tokens_file
         (App2._google_headers "" "" no_int no_repr
            (granting (<["refresh_token" := JStr "rt1"]> {["access_token" := JStr "at1"]}))
            (world_with (Stored stale_record))).2 = Stored t'
       ∧ t' !! "refresh_token" = Some (JStr "rt0")
       ∧ ∀ rt',
           (<["refresh_token" := JStr "rt1"]> {["access_token" := JStr "at1"]} : dict)
             !! "refresh_token" = Some rt' →
           rt' ≠ JStr "rt0" → t' !! "refresh_token" ≠ Some rt').
Proof.
  destruct C9_refresh_keeps_sent_refresh_token as (H1 & _ & H3).
  split.
  - apply (H1 None None _ (JStr "rt0")
             (mk_response 200 ""
                (Some (<["refresh_token" := JStr "rt1"]> {["access_token" := JStr "at1"]})))
             _ 4500%Z (world_with (Stored stale_record)));
      reflexivity.
  - apply (H3 "" "" no_int no_repr _ stale_record 0%Z (JStr "rt0")
             (mk_response 200 ""
                (Some (<["refresh_token" := JStr "rt1"]> {["access_token" := JStr "at1"]})))
             _ 3600%Z (world_with (Stored stale_record)));
      try reflexivity.
    vm_compute. discriminate.
Defined.

(** ** C5: the stored [expires_at] *)


(** C5, as stated, fails on [src/App.py]: at time 1000 a refresh answered
    with [expires_in = 3600] stores [expires_at = 1000 + 3600], with no
    margin subtracted. *)
Lemma C5_no_margin_stored_in_App1 :
  tokens_file
    (App1.refresh_access_token None None (granting answer_3600)
       (JStr "rt0") (world_with (Stored stale_record))).2
  = Stored (refreshed (JStr "rt0") (1000 + 3600) answer_3600)
  ∧ now (world_with (Stored stale_record)) = 1000%Z
  ∧ answer_3600 !! "expires_in" = Some (JInt 3600)
  ∧ ∀ margin, (0 < margin)%Z →
      refreshed (JStr "rt0") (1000 + 3600) answer_3600 !! "expires_at"
      ≠ Some (JInt (1000 + 3600 - margin)).
Proof.
  split; [vm_compute; reflexivity|].
  split; [reflexivity|]. split; [vm_compute; reflexivity|].
  intros margin Hm. rewrite refreshed_expires_at. intros [= H]. lia.
Qed.

(** C5, amended.  With [ttl] the [expires_in] of the answer (3600 in
    [src/app.py] and 3500 in [src/App.py] when the answer has none):
    [src/app.py] stores [expires_at = now + ttl - 60] after a code exchange
    and returns a dictionary with that [expires_at] from a refresh;
    [src/App.py] stores [expires_at = now + ttl] after a code exchange and
    after a refresh, and subtracts the 60 seconds when it reads the record:
    it refreshes as soon as [now >= expires_at - 60].  [src/app.py]
    refreshes as soon as [now >= expires_at]. *)
Theorem C5_expires_at :
  (∀ CLIENT_ID CLIENT_SECRET REDIRECT_URI int_of_str str_of_exn net req code r j ttl w,
     args req !! "code" = Some code →
     code ≠ "" →
     net (List.length (calls w))
       (exchange_request2 CLIENT_ID CLIENT_SECRET REDIRECT_URI code) = Answer r →
     is_error_status (status_code r) = false →
     json_body r = Some j →
     dict_get j "expires_in" (JInt 3600) = JInt ttl →
     disk_writable w = true →
     ∃ t',
       tokens_file
         (App2.auth_callback CLIENT_ID CLIENT_SECRET REDIRECT_URI int_of_str
            str_of_exn net req w).2 = Stored t'
       ∧ t' !! "expires_at" = Some (JInt (now w + ttl - 60)))
  ∧ (∀ CLIENT_ID CLIENT_SECRET int_of_str net rt r j ttl w,
       net (List.length (calls w)) (refresh_request2 CLIENT_ID CLIENT_SECRET rt) = Answer r →
       is_error_status (status_code r) = false →
       json_body r = Some j →
       dict_get j "expires_in" (JInt 3600) = JInt ttl →
       ∃ t' w',
         App2._refresh_access_token CLIENT_ID CLIENT_SECRET int_of_str net rt w
           = (Ok t', w')
         ∧ t' !! "expires_at" = Some (JInt (now w + ttl - 60)))
  ∧ (∀ CLIENT_ID CLIENT_SECRET REDIRECT_URI net req code r j ttl w,
       args req !! "code" = Some code →
       code ≠ "" →
       net (List.length (calls w))
         (exchange_request1 CLIENT_ID CLIENT_SECRET REDIRECT_URI code) = Answer r →
       is_error_status (status_code r) = false →
       json_body r = Some j →
       dict_get j "expires_in" (JInt 3500) = JInt ttl →
       disk_writable w = true →
       ∃ t',
         tokens_file
           (App1.auth_callback CLIENT_ID CLIENT_SECRET REDIRECT_URI net req w).2
         = Stored t'
         ∧ t' !! "expires_at" = Some (JInt (now w + ttl)))
  ∧ (∀ CLIENT_ID CLIENT_SECRET net rt r j ttl w,
       net (List.length (calls w)) (refresh_request1 CLIENT_ID CLIENT_SECRET rt) = Answer r →
       is_error_status (status_code r) = false →
       json_body r = Some j →
       dict_get j "expires_in" (JInt 3500) = JInt ttl →
       disk_writable w = true →
       ∃ t',
         tokens_file
           (App1.refresh_access_token CLIENT_ID CLIENT_SECRET net rt w).2 = Stored t'
         ∧ t' !! "expires_at" = Some (JInt (now w + ttl)))
  ∧ (∀ CLIENT_ID CLIENT_SECRET net t e rt w,
       tokens_file w = Stored t →
       t !! "expires_at" = Some (JInt e) →
       (e - 60 ≤ now w)%Z →
       t !! "refresh_token" = Some rt →
       calls (App1.get_access_token CLIENT_ID CLIENT_SECRET net w).2
       = (calls w ++ [refresh_request1 CLIENT_ID CLIENT_SECRET rt])%list)
  ∧ (∀ CLIENT_ID CLIENT_SECRET int_of_str py_repr net t e rt w,
       tokens_file w = Stored t →
       t !! "expires_at" = Some (JInt e) →
       (e ≤ now w)%Z →
       t !! "refresh_token" = Some rt →
       truthy rt = true →
       calls (App2._google_headers CLIENT_ID CLIENT_SECRET int_of_str py_repr net w).2
       = (calls w ++ [refresh_request2 CLIENT_ID CLIENT_SECRET rt])%list).
Proof.
  split; [|split; [|split; [|split; [|split]]]].
  - intros * Hc Hne Hn Hs Hj Ht Hd.
    erewrite callback2_ok by (eauto; by rewrite Ht).
    eexists. split; [reflexivity | apply lookup_insert_eq].
  - intros * Hn Hs Hj Ht. do 2 eexists.
    split; [eapply refresh2_ok; eauto; by rewrite Ht|].
    apply refreshed_expires_at.
  - intros * Hc Hne Hn Hs Hj Ht Hd.
    erewrite callback1_ok by (eauto; by rewrite Ht).
    eexists. split; [reflexivity | apply lookup_insert_eq].
  - intros * Hn Hs Hj Ht Hd.
    erewrite refresh1_ok by (eauto; by rewrite Ht). simpl.
    eexists. split; [reflexivity | apply refreshed_expires_at].
  - intros * Hf He Hle Hrt.
    eapply get1_expired_calls; eauto. unfold dict_get. by rewrite He.
  - intros * Hf He Hle Hrt Htr.
    eapply headers2_expired_calls; eauto. unfold dict_get. by rewrite He.
Qed.

Lemma C5_expires_at_witness :
  (∃ t',
     tokens_file
       (App2.auth_callback "" "" "" no_int no_exn_text (granting answer_3600)
          callback_request (world_with NoFile)).2 = Stored t'
     ∧ t' !! "expires_at" = Some (JInt (1000 + 3600 - 60)))
  ∧ (∃ t' w',
       App2._refresh_access_token "" "" no_int (granting answer_3600) (JStr "rt0")
         (world_with (Stored stale_record)) = (Ok t', w')
       ∧ t' !! "expires_at" = Some (JInt (1000 + 3600 - 60)))
  ∧ (∃ t',
       tokens_file
         (App1.auth_callback None None None (granting answer_3600)
            callback_request (world_with NoFile)).2 = Stored t'
       ∧ t' !! "expires_at" = Some (JInt (1000 + 3600)))
  ∧ (∃ t',
       tokens_file
         (App1.refresh_access_token None None (granting answer_3600) (JStr "rt0")
            (world_with (Stored stale_record))).2 = Stored t'
       ∧ t' !! "expires_at" = Some (JInt (1000 + 3600)))
  ∧ calls (App1.get_access_token None None unreachable
             (world_with (Stored (<["expires_at" := JInt 1030]> stale_record)))).2
    = [refresh_request1 None None (JStr "rt0")]
  ∧ calls (App2._google_headers "" "" no_int no_repr unreachable
             (world_with (Stored (<["expires_at" := JInt 1000]> stale_record)))).2
    = [refresh_request2 "" "" (JStr "rt0")].
Proof.
  destruct C5_expires_at as (H1 & H2 & H3 & H4 & H5 & H6).
  split; [|split; [|split; [|split; [|split]]]].
  - apply (H1 "" "" "" no_int no_exn_text (granting answer_3600) callback_request
             "c0d3" (mk_response 200 "" (Some answer_3600)) answer_3600 3600%Z
             (world_with NoFile));
      try reflexivity.
    discriminate.
  - apply (H2 "" "" no_int (granting answer_3600) (JStr "rt0")
             (mk_response 200 "" (Some answer_3600)) answer_3600 3600%Z
             (world_with (Stored stale_record)));
      reflexivity.
  - apply (H3 None None None (granting answer_3600) callback_request
             "c0d3" (mk_response 200 "" (Some answer_3600)) answer_3600 3600%Z
             (world_with NoFile));
      try reflexivity.
    discriminate.
  - apply (H4 None None (granting answer_3600) (JStr "rt0")
             (mk_response 200 "" (Some answer_3600)) answer_3600 3600%Z
             (world_with (Stored stale_record)));
      reflexivity.
  - apply (H5 None None unreachable (<["expires_at" := JInt 1030]> stale_record)
             1030%Z (JStr "rt0")
             (world_with (Stored (<["expires_at" := JInt 1030]> stale_record))));
      try reflexivity.
    vm_compute. discriminate.
  - apply (H6 "" "" no_int no_repr unreachable
             (<["expires_at" := JInt 1000]> stale_record) 1000%Z (JStr "rt0")
             (world_with (Stored (<["expires_at" := JInt 1000]> stale_record))));
      reflexivity.
Defined.

(** ** C6: [load_tokens] on a missing or damaged token file *)

(** C6 holds for [src/app.py] and fails on [src/App.py].  There
    [load_tokens] returns absent for a missing file, but raises when the
    file is there and is not JSON, or cannot be opened.  [src/app.py]
    returns the empty dictionary, which its callers treat as absent, in
    every such state. *)
Theorem C6_load_tokens_on_damaged_file :
  App1.load_tokens (world_with Corrupt) = (Raise JSONDecodeError, world_with Corrupt)
  ∧ App1.load_tokens (world_with Unreadable) = (Raise OSError, world_with Unreadable)
  ∧ App1.load_tokens (world_with NoFile) = (Ok None, world_with NoFile)
  ∧ (∀ w, App2.load_tokens w
          = (Ok match tokens_file w with Stored d => d | _ => ∅ end, w)).
Proof.
  split; [reflexivity|]. split; [reflexivity|]. split; [reflexivity|].
  apply load_tokens2_run.
Qed.

(** ** C10: an expired record without a refresh token *)

(** C10 holds for [src/app.py] and fails on [src/App.py]: there
    [get_access_token] reads [t["refresh_token"]] of the expired record and
    raises [KeyError]; no call is made.  [src/app.py] returns absent on the
    same store. *)
Theorem C10_expired_without_refresh_token :
  App1.get_access_token None None unreachable
      (world_with (Stored stale_record_without_refresh_token))
    = (Raise (KeyError "refresh_token"),
       world_with (Stored stale_record_without_refresh_token))
  ∧ stale_record_without_refresh_token !! "refresh_token" = None
  ∧ App2._google_headers "" "" no_int no_repr unreachable
      (world_with (Stored stale_record_without_refresh_token))
    = (Ok None, world_with (Stored stale_record_without_refresh_token)).
Proof. repeat split; vm_compute; reflexivity. Qed.

(** ** C8: one refresh and one retry after a 401 *)

(** C8 holds for [gmail_unread] of [src/app.py] and fails on the other
    handlers.  With a usable record in the store and a Gmail API that
    answers 401, [gmail_message] of [src/app.py] and [gmail_unread] of
    [src/App.py] make one call and relay its 401: no refresh, no retry.
    [gmail_unread] of [src/app.py] on the same input calls the API, the
    token endpoint and the API again. *)
Theorem C8_no_retry_after_401 :
  App2.gmail_message "" "" "" no_int no_repr rejecting_bearer message_request
      (world_with (Stored fresh_record))
    = (Ok (mk_flask_response (BJson {["error" := JStr "UNAUTHENTICATED"]}) 401 None),
       logged
         (mk_request "GET" "https://gmail.googleapis.com/gmail/v1/users/me/messages/m1"
            [("Authorization", "Bearer at0")] [("format", "full")] [])
         (world_with (Stored fresh_record)))
  ∧ App1.gmail_unread None None (Some "k3y") no_repr rejecting_bearer
      (mk_flask_request {["x-api-key" := "k3y"]} ∅)
      (world_with (Stored fresh_record))
    = (Ok (mk_flask_response (BText "{error}") 401 (Some "application/json")),
       logged
         (mk_request "GET" "https://gmail.googleapis.com/gmail/v1/users/me/messages"
            [("Authorization", "Bearer at0")]
            [("q", "is:unread"); ("maxResults", "10")] [])
         (world_with (Stored fresh_record)))
  ∧ map rq_url
      (calls (App2.gmail_unread "" "" "" no_int no_repr rejecting_bearer bare_request
                (world_with (Stored fresh_record))).2)
    = ["https://gmail.googleapis.com/gmail/v1/users/me/messages";
       token_endpoint;
       "https://gmail.googleapis.com/gmail/v1/users/me/messages"].
Proof. repeat split; vm_compute; reflexivity. Qed.

(** ** C7: the consent URL *)

Lemma occurs_app c x y : occurs c (x ++ y) = occurs c x || occurs c y.
Proof.
  induction x as [|a x IH]; simpl; [done|]. rewrite IH. by rewrite orb_assoc.
Qed.

Lemma split_on_absent sep s : occurs sep s = false → split_on sep s = [s].
Proof.
  induction s as [|a s IH]; simpl; [done|].
  intros [Ha Hs]%orb_false_iff. rewrite Ha, IH; done.
Qed.

Lemma split_on_app sep x y :
  occurs sep x = false →
  split_on sep (x ++ String sep y) = x :: split_on sep y.
Proof.
  induction x as [|a x IH]; simpl.
  - intros _. by rewrite Ascii.eqb_refl.
  - intros [Ha Hs]%orb_false_iff. rewrite Ha, IH; done.
Qed.

(** Splitting undoes joining, when no piece holds the separator. *)
Lemma split_on_concat sep x xs :
  Forall (λ s, occurs sep s = false) (x :: xs) →
  split_on sep (String.concat (String sep EmptyString) (x :: xs)) = x :: xs.
Proof.
  revert x. induction xs as [|y ys IH]; intros x Hall.
  - simpl. apply split_on_absent. by inversion Hall.
  - inversion Hall as [|? ? Hx Hrest]; subst.
    change (String.concat (String sep EmptyString) (x :: y :: ys))
      with (x ++ String sep (String.concat (String sep EmptyString) (y :: ys))).
    rewrite split_on_app by done. by rewrite IH.
Qed.

(** [quote_plus] never produces an ampersand. *)
Lemma quote_plus_byte_no_ampersand a : occurs "&" (quote_plus_byte a) = false.
Proof. destruct a as [[] [] [] [] [] [] [] []]; reflexivity. Qed.

Lemma quote_plus_no_ampersand s : occurs "&" (quote_plus s) = false.
Proof.
  induction s as [|a s IH]; simpl; [done|].
  by rewrite occurs_app, quote_plus_byte_no_ampersand, IH.
Qed.

Lemma urlencode_split p ps :
  split_on "&" (urlencode (p :: ps))
  = map (λ kv, quote_plus kv.1 ++ "=" ++ quote_plus kv.2) (p :: ps).
Proof.
  unfold urlencode. rewrite map_cons. apply split_on_concat.
  change (Forall (λ s, occurs "&" s = false)
            (map (λ kv, quote_plus kv.1 ++ "=" ++ quote_plus kv.2) (p :: ps))).
  apply Forall_map, Forall_forall. intros [k v] _. simpl.
  rewrite !occurs_app, !quote_plus_no_ampersand. reflexivity.
Qed.

Lemma consent_parameters1 CLIENT_ID REDIRECT_URI SCOPES :
  query_parameters (App1.consent_url CLIENT_ID REDIRECT_URI SCOPES)
  = ["client_id=" ++ quote_plus (str_of_setting CLIENT_ID);
     "redirect_uri=" ++ quote_plus (str_of_setting REDIRECT_URI);
     "response_type=code";
     "access_type=offline";
     "prompt=consent";
     "scope=" ++ quote_plus SCOPES].
Proof.
  unfold query_parameters, App1.consent_url.
  change (query_string _)
    with (urlencode (App1.consent_params CLIENT_ID REDIRECT_URI SCOPES)).
  unfold App1.consent_params. rewrite urlencode_split. reflexivity.
Qed.

Lemma consent_parameters2 CLIENT_ID REDIRECT_URI SCOPES :
  query_parameters (App2.consent_url CLIENT_ID REDIRECT_URI SCOPES)
  = ["response_type=code";
     "client_id=" ++ quote_plus CLIENT_ID;
     "redirect_uri=" ++ quote_plus REDIRECT_URI;
     "scope=" ++ quote_plus (String.concat " " SCOPES);
     "access_type=offline";
     "prompt=consent";
     "include_granted_scopes=true"].
Proof.
  unfold query_parameters, App2.consent_url.
  change (query_string _)
    with (urlencode (App2.consent_params CLIENT_ID REDIRECT_URI SCOPES)).
  unfold App2.consent_params. rewrite urlencode_split. reflexivity.
Qed.

(** C7, as stated, fails on [src/App.py]: its consent URL has the six
    parameters below, and [include_granted_scopes] is not among them. *)
Lemma C7_no_granted_scopes_in_App1 :
  query_parameters
    (App1.consent_url (Some "id") (Some "https://h/cb") "mail calendar")
  = ["client_id=id"; "redirect_uri=https%3A%2F%2Fh%2Fcb"; "response_type=code";
     "access_type=offline"; "prompt=consent"; "scope=mail+calendar"]
  ∧ ¬ In "include_granted_scopes=true"
        (query_parameters
           (App1.consent_url (Some "id") (Some "https://h/cb") "mail calendar")).
Proof.
  split; [vm_compute; reflexivity|].
  vm_compute. intros H. repeat (destruct H as [H|H]; [discriminate H|]). exact H.
Qed.

(** C7, amended.  [auth_start] answers with a redirect to a URL that is a
    function of the settings alone, and leaves the world as it found it: no
    call is made.  (In [src/app.py] the decorator comes first and may
    answer Forbidden.)  The parameters of the URL are exactly the ones
    listed; [prompt=consent] and [access_type=offline] are among them in
    both files, [include_granted_scopes=true] in [src/app.py] only. *)
Theorem C7_consent_url :
  (∀ CLIENT_ID REDIRECT_URI SCOPES w,
     App1.auth_start CLIENT_ID REDIRECT_URI SCOPES w
     = (Ok (redirect_to (App1.consent_url CLIENT_ID REDIRECT_URI SCOPES)), w))
  ∧ (∀ CLIENT_ID REDIRECT_URI API_KEY SCOPES req w,
       App2.auth_start CLIENT_ID REDIRECT_URI API_KEY SCOPES req w
       = (Ok (if key_accepted API_KEY req
              then redirect_to (App2.consent_url CLIENT_ID REDIRECT_URI SCOPES)
              else App2._forbidden), w))
  ∧ (∀ CLIENT_ID REDIRECT_URI SCOPES,
       let ps := query_parameters (App1.consent_url CLIENT_ID REDIRECT_URI SCOPES) in
       ps = ["client_id=" ++ quote_plus (str_of_setting CLIENT_ID);
             "redirect_uri=" ++ quote_plus (str_of_setting REDIRECT_URI);
             "response_type=code";
             "access_type=offline";
             "prompt=consent";
             "scope=" ++ quote_plus SCOPES]
       ∧ In "prompt=consent" ps
       ∧ In "access_type=offline" ps)
  ∧ (∀ CLIENT_ID REDIRECT_URI SCOPES,
       let ps := query_parameters (App2.consent_url CLIENT_ID REDIRECT_URI SCOPES) in
       ps = ["response_type=code";
             "client_id=" ++ quote_plus CLIENT_ID;
             "redirect_uri=" ++ quote_plus REDIRECT_URI;
             "scope=" ++ quote_plus (String.concat " " SCOPES);
             "access_type=offline";
             "prompt=consent";
             "include_granted_scopes=true"]
       ∧ In "prompt=consent" ps
       ∧ In "access_type=offline" ps
       ∧ In "include_granted_scopes=true" ps).
Proof.
  split; [|split; [|split]].
  - reflexivity.
  - intros. unfold App2.auth_start, App2.require_api_key, key_accepted.
    destruct (String.eqb API_KEY ""); simpl; [reflexivity|].
    destruct (String.eqb _ API_KEY); reflexivity.
  - intros. subst ps. rewrite consent_parameters1.
    split; [reflexivity|]. simpl. tauto.
  - intros. subst ps. rewrite consent_parameters2.
    split; [reflexivity|]. simpl. tauto.
Qed.

(** * Further properties of [src/app.py] and [src/App.py] *)

Lemma X1_gmail_unread_refreshes_and_retries_once_witness :
  App2.gmail_unread "" "" "" no_int no_repr rejecting_bearer bare_request
    (world_with (Stored fresh_record))
  = (Ok (mk_flask_response (BJson {["error" := JStr "UNAUTHENTICATED"]}) 401 None),
     mk_world (Stored (refreshed (JStr "rt0") (1000 + 3600 - 60) answer_3600)) true 1000
       ([] ++
        [unread_request [("Authorization", "Bearer at0")] bare_request;
         refresh_request2 "" "" (JStr "rt0");
         unread_request [("Authorization", "Bearer at1")] bare_request])).
Proof.
  apply (X1_gmail_unread_refreshes_and_retries_once "" "" "" no_int no_repr
           rejecting_bearer bare_request fresh_record 5000%Z
           [("Authorization", "Bearer at0")] (JStr "rt0") unauthenticated
           (mk_response 200 "" (Some answer_3600)) answer_3600 3600%Z
           unauthenticated {["error" := JStr "UNAUTHENTICATED"]}
           (world_with (Stored fresh_record)));
    reflexivity.
Defined.

Lemma X2_gmail_unread_relays_401_when_refresh_fails_witness :
  App2.gmail_unread "" "" "" no_int no_repr revoked bare_request
    (world_with (Stored fresh_record))
  = (Ok (mk_flask_response (BJson {["error" := JStr "UNAUTHENTICATED"]}) 401 None),
     logged (refresh_request2 "" "" (JStr "rt0"))
       (logged (unread_request [("Authorization", "Bearer at0")] bare_request)
          (world_with (Stored fresh_record)))).
Proof.
  apply (X2_gmail_unread_relays_401_when_refresh_fails "" "" "" no_int no_repr
           revoked bare_request fresh_record 5000%Z
           [("Authorization", "Bearer at0")] (JStr "rt0") unauthenticated
           {["error" := JStr "UNAUTHENTICATED"]} (world_with (Stored fresh_record)));
    reflexivity.
Defined.

(** X3.  With an empty store, [GET /gmail/unread] answers Not Authorized
    (status 401) and makes no call, in both files, once the API key check
    is passed. *)
Theorem X3_empty_store_is_not_authorized :
  (∀ CLIENT_ID CLIENT_SECRET API_KEY int_of_str py_repr net req w,
     key_accepted API_KEY req = true →
     tokens_file w = NoFile →
     App2.gmail_unread CLIENT_ID CLIENT_SECRET API_KEY int_of_str py_repr net req w
     = (Ok App2._need_auth, w))
  ∧ (∀ CLIENT_ID CLIENT_SECRET API_KEY py_repr net req w,
       App1.require_api_key API_KEY req = true →
       tokens_file w = NoFile →
       App1.gmail_unread CLIENT_ID CLIENT_SECRET API_KEY py_repr net req w
       = (Ok App1._need_auth, w)).
Proof.
  split.
  - intros * Hk Hf. unfold App2.gmail_unread.
    rewrite require_api_key2_accepted by done. run.
    rewrite headers2_no_record; [done|]. intros t. by rewrite Hf.
  - intros * Hk Hf. unfold App1.gmail_unread. rewrite Hk. run.
    by rewrite get1_no_file.
Qed.

Lemma X3_empty_store_is_not_authorized_witness :
  App2.gmail_unread "" "" "" no_int no_repr unreachable bare_request (world_with NoFile)
    = (Ok App2._need_auth, world_with NoFile)
  ∧ App1.gmail_unread None None (Some "k3y") no_repr unreachable
      (mk_flask_request {["x-api-key" := "k3y"]} ∅) (world_with NoFile)
    = (Ok App1._need_auth, world_with NoFile).
Proof.
  destruct X3_empty_store_is_not_authorized as (H1 & H2).
  split; [apply H1 | apply H2]; reflexivity.
Defined.

(** ** The number of outgoing calls *)

Lemma adds_calls_quiet {A} n (c : M A) :
  (∀ w, calls (c w).2 = calls w) → adds_calls n c.
Proof.
  intros H w. exists []. rewrite H, app_nil_r. split; [done|simpl; lia].
Qed.

Lemma adds_calls_ret {A} n (a : A) : adds_calls n (mret a).
Proof. by apply adds_calls_quiet. Qed.

Lemma adds_calls_lift {A} n (r : result A) : adds_calls n (lift r).
Proof. by apply adds_calls_quiet. Qed.

Lemma adds_calls_raise {A} n e : adds_calls n (raise (A:=A) e).
Proof. by apply adds_calls_quiet. Qed.

Lemma adds_calls_time n : adds_calls n time_time.
Proof. by apply adds_calls_quiet. Qed.

Lemma adds_calls_dump n d : adds_calls n (json_dump d).
Proof.
  apply adds_calls_quiet. intros w. unfold json_dump. by destruct (disk_writable w).
Qed.

(** The calls of a sequence are those of its parts. *)
Lemma adds_calls_bind {A B} n m (c : M A) (k : A → M B) :
  adds_calls n c → (∀ a, adds_calls m (k a)) → adds_calls (n + m) (c ≫= k).
Proof.
  intros Hc Hk w. unfold mbind, M_bind.
  destruct (Hc w) as (l & Hl & Hn). destruct (c w) as [[a|e] w1]; simpl in *.
  - destruct (Hk a w1) as (l' & Hl' & Hm). exists (l ++ l')%list.
    rewrite Hl', Hl, app_assoc, length_app. split; [done|lia].
  - exists l. split; [done|lia].
Qed.

Lemma adds_calls_try {A} n m (c h : M A) :
  adds_calls n c → adds_calls m h → adds_calls (n + m) (try_except c h).
Proof.
  intros Hc Hh w. unfold try_except.
  destruct (Hc w) as (l & Hl & Hn). destruct (c w) as [[a|e] w1]; simpl in *.
  - exists l. split; [done|lia].
  - destruct (Hh w1) as (l' & Hl' & Hm). exists (l ++ l')%list.
    rewrite Hl', Hl, app_assoc, length_app. split; [done|lia].
Qed.

Lemma adds_calls_send net rq : adds_calls 1 (send net rq).
Proof. intros w. exists [rq]. unfold send. by destruct (net _ _). Qed.

Create HintDb calls.
#[local] Hint Resolve adds_calls_ret adds_calls_lift adds_calls_raise adds_calls_time
  adds_calls_dump adds_calls_send : calls.

Ltac step n m :=
  apply (adds_calls_bind (Z.to_nat n) (Z.to_nat m));
    [solve [auto with calls]|intros ?].

Ltac branch :=
  repeat match goal with
    | |- adds_calls _ (if ?b then _ else _) => destruct b
    | |- adds_calls _ (match ?x with _ => _ end) => destruct x
    end; auto with calls.

Section App2_calls.
Variables CLIENT_ID CLIENT_SECRET API_KEY : string.
Variable int_of_str : string → option Z.
Variable py_repr : json → string.
Variable net : network.

Lemma adds_calls_load2 n : adds_calls n App2.load_tokens.
Proof. apply adds_calls_quiet. intros w. by rewrite load_tokens2_run. Qed.

Lemma adds_calls_refresh2 rt :
  adds_calls 1 (App2._refresh_access_token CLIENT_ID CLIENT_SECRET int_of_str net rt).
Proof.
  intros w. exists [refresh_request2 CLIENT_ID CLIENT_SECRET rt].
  by rewrite refresh2_world.
Qed.

#[local] Hint Resolve adds_calls_load2 adds_calls_refresh2 : calls.

Lemma adds_calls_headers2 :
  adds_calls 1 (App2._google_headers CLIENT_ID CLIENT_SECRET int_of_str py_repr net).
Proof.
  unfold App2._google_headers, App2.save_tokens.
  step 0 1. branch. step 0 1. step 0 1.
  apply (adds_calls_bind 1%nat 0%nat); [|intros ?; branch].
  branch. apply (adds_calls_try 1%nat 0%nat); [|auto with calls].
  step 0 1. step 1 0. step 0 0. auto with calls.
Qed.

Lemma adds_calls_relay2 n r : adds_calls n (App2.relay r).
Proof.
  unfold App2.relay, response_json.
  apply (adds_calls_bind 0%nat n); [branch|auto with calls].
Qed.

#[local] Hint Resolve adds_calls_headers2 adds_calls_relay2 : calls.

Lemma adds_calls_require_api_key n func req :
  (∀ req, adds_calls n (func req)) →
  adds_calls n (App2.require_api_key API_KEY func req).
Proof. intros Hf. unfold App2.require_api_key. branch. Qed.

Lemma adds_calls_gmail_unread2 req :
  adds_calls 5
    (App2.gmail_unread CLIENT_ID CLIENT_SECRET API_KEY int_of_str py_repr net req).
Proof.
  unfold App2.gmail_unread. apply adds_calls_require_api_key. clear req. intros req.
  step 1 4. branch. unfold requests_get. step 1 3.
  apply (adds_calls_bind 3%nat 0%nat); [|auto with calls].
  branch. step 0 3. branch.
  apply (adds_calls_try 3%nat 0%nat); [|auto with calls].
  step 0 3. step 1 2. unfold App2.save_tokens. step 0 2. step 1 1. auto with calls.
Qed.

Lemma adds_calls_handlers2 data req :
  adds_calls 2 (App2.gmail_message CLIENT_ID CLIENT_SECRET API_KEY int_of_str py_repr net req)
  ∧ adds_calls 2 (App2.gmail_send CLIENT_ID CLIENT_SECRET API_KEY int_of_str py_repr net data req)
  ∧ adds_calls 2 (App2.gmail_mark_read CLIENT_ID CLIENT_SECRET API_KEY int_of_str py_repr net data req)
  ∧ adds_calls 2 (App2.gmail_archive CLIENT_ID CLIENT_SECRET API_KEY int_of_str py_repr net data req)
  ∧ adds_calls 2 (App2.calendar_events CLIENT_ID CLIENT_SECRET API_KEY int_of_str py_repr net req)
  ∧ adds_calls 2 (App2.contacts_list CLIENT_ID CLIENT_SECRET API_KEY int_of_str py_repr net req)
  ∧ adds_calls 2 (App2.contacts_search CLIENT_ID CLIENT_SECRET API_KEY int_of_str py_repr net req)
  ∧ adds_calls 2 (App2.contacts_get CLIENT_ID CLIENT_SECRET API_KEY int_of_str py_repr net req).
Proof.
  repeat split;
    unfold App2.gmail_message, App2.gmail_send, App2.gmail_mark_read, App2.gmail_archive,
      App2.modify_labels, App2.calendar_events, App2.contacts_list, App2.contacts_search,
      App2.contacts_get;
    apply adds_calls_require_api_key; clear req; intros req;
    unfold requests_get, requests_post_json;
    step 1 1; branch; try (step 0 1); step 1 0; auto with calls.
Qed.

End App2_calls.

Section App1_calls.
Variables CLIENT_ID CLIENT_SECRET API_KEY : option string.
Variable py_repr : json → string.
Variable int_of_str : string → option Z.
Variable net : network.

Lemma adds_calls_load1 n : adds_calls n App1.load_tokens.
Proof.
  apply adds_calls_quiet. intros w. rewrite load_tokens1_run.
  by destruct (tokens_file w).
Qed.

Lemma adds_calls_refresh1 rt :
  adds_calls 1 (App1.refresh_access_token CLIENT_ID CLIENT_SECRET net rt).
Proof.
  intros w. exists [refresh_request1 CLIENT_ID CLIENT_SECRET rt].
  by rewrite refresh1_calls.
Qed.

#[local] Hint Resolve adds_calls_load1 adds_calls_refresh1 : calls.

Lemma adds_calls_get1 :
  adds_calls 1 (App1.get_access_token CLIENT_ID CLIENT_SECRET net).
Proof.
  unfold App1.get_access_token.
  step 0 1. branch. step 0 1. step 0 1.
  apply (adds_calls_bind 1%nat 0%nat); [|auto with calls].
  branch. step 0 1. auto with calls.
Qed.

#[local] Hint Resolve adds_calls_get1 : calls.

Lemma adds_calls_handlers1 req :
  adds_calls 2 (App1.gmail_unread CLIENT_ID CLIENT_SECRET API_KEY py_repr net req)
  ∧ adds_calls 2 (App1.gmail_message CLIENT_ID CLIENT_SECRET API_KEY py_repr net req)
  ∧ adds_calls 2 (App1.cal_events CLIENT_ID CLIENT_SECRET API_KEY py_repr net req)
  ∧ adds_calls 2 (App1.contacts_list CLIENT_ID CLIENT_SECRET API_KEY py_repr net int_of_str req)
  ∧ adds_calls 2 (App1.contacts_search CLIENT_ID CLIENT_SECRET API_KEY py_repr net int_of_str req)
  ∧ adds_calls 2 (App1.contacts_get CLIENT_ID CLIENT_SECRET API_KEY py_repr net req).
Proof.
  repeat split;
    unfold App1.gmail_unread, App1.gmail_message, App1.cal_events, App1.contacts_list,
      App1.contacts_search, App1.contacts_get, requests_get;
    branch; step 1 1; branch; try (step 0 1); step 1 0; auto with calls.
Qed.

End App1_calls.

(** X4.  Whatever the remote side answers, a request is served with a
    bounded number of outgoing calls, and the log of calls only grows:
    [gmail_unread] of [src/app.py] makes at most five calls (two refreshes
    by [_google_headers], the forced refresh, the call and its retry), every
    other handler of the two files at most two (one refresh and the call).
    Five is reached: with an expired record and a token endpoint that grants
    tokens of 30 seconds, a rejected [gmail_unread] makes five calls. *)
Theorem X4_outgoing_calls_are_bounded :
  (∀ CLIENT_ID CLIENT_SECRET API_KEY int_of_str py_repr net data req,
     adds_calls 5
       (App2.gmail_unread CLIENT_ID CLIENT_SECRET API_KEY int_of_str py_repr net req)
     ∧ adds_calls 2
         (App2.gmail_message CLIENT_ID CLIENT_SECRET API_KEY int_of_str py_repr net req)
     ∧ adds_calls 2
         (App2.gmail_send CLIENT_ID CLIENT_SECRET API_KEY int_of_str py_repr net data req)
     ∧ adds_calls 2
         (App2.gmail_mark_read CLIENT_ID CLIENT_SECRET API_KEY int_of_str py_repr net data req)
     ∧ adds_calls 2
         (App2.gmail_archive CLIENT_ID CLIENT_SECRET API_KEY int_of_str py_repr net data req)
     ∧ adds_calls 2
         (App2.calendar_events CLIENT_ID CLIENT_SECRET API_KEY int_of_str py_repr net req)
     ∧ adds_calls 2
         (App2.contacts_list CLIENT_ID CLIENT_SECRET API_KEY int_of_str py_repr net req)
     ∧ adds_calls 2
         (App2.contacts_search CLIENT_ID CLIENT_SECRET API_KEY int_of_str py_repr net req)
     ∧ adds_calls 2
         (App2.contacts_get CLIENT_ID CLIENT_SECRET API_KEY int_of_str py_repr net req))
  ∧ (∀ CLIENT_ID CLIENT_SECRET API_KEY py_repr int_of_str net req,
       adds_calls 2 (App1.gmail_unread CLIENT_ID CLIENT_SECRET API_KEY py_repr net req)
       ∧ adds_calls 2 (App1.gmail_message CLIENT_ID CLIENT_SECRET API_KEY py_repr net req)
       ∧ adds_calls 2 (App1.cal_events CLIENT_ID CLIENT_SECRET API_KEY py_repr net req)
       ∧ adds_calls 2
           (App1.contacts_list CLIENT_ID CLIENT_SECRET API_KEY py_repr net int_of_str req)
       ∧ adds_calls 2
           (App1.contacts_search CLIENT_ID CLIENT_SECRET API_KEY py_repr net int_of_str req)
       ∧ adds_calls 2 (App1.contacts_get CLIENT_ID CLIENT_SECRET API_KEY py_repr net req))
  ∧ map rq_url
      (calls (App2.gmail_unread "" "" "" no_int no_repr short_lived bare_request
                (world_with (Stored stale_record))).2)
    = [token_endpoint;
       "https://gmail.googleapis.com/gmail/v1/users/me/messages";
       token_endpoint;
       token_endpoint;
       "https://gmail.googleapis.com/gmail/v1/users/me/messages"].
Proof.
  split; [|split].
  - intros. split; [apply adds_calls_gmail_unread2 | apply adds_calls_handlers2].
  - intros. apply adds_calls_handlers1.
  - vm_compute. reflexivity.
Qed.

(** ** The refresh token stays in the store *)

Lemma keeps_quiet {A} rt (c : M A) (Q : A → Prop) :
  (∀ w, tokens_file (c w).2 = tokens_file w) →
  (∀ w a, holds_refresh_token rt w → (c w).1 = Ok a → Q a) →
  keeps_refresh_token rt c Q.
Proof.
  intros Hs Hq w Hw. split; [|eauto].
  destruct Hw as (t & Ht & Hrt). exists t. by rewrite Hs.
Qed.

Lemma keeps_ret {A} rt (a : A) (Q : A → Prop) : Q a → keeps_refresh_token rt (mret a) Q.
Proof. intros Ha. apply keeps_quiet; [done|]. by intros w a' _ [= <-]. Qed.

Lemma keeps_any {A} rt (c : M A) :
  (∀ w, tokens_file (c w).2 = tokens_file w) →
  keeps_refresh_token rt c (λ _, True).
Proof. intros H. by apply keeps_quiet. Qed.

Lemma keeps_lift {A} rt (r : result A) (Q : A → Prop) :
  (∀ a, r = Ok a → Q a) → keeps_refresh_token rt (lift r) Q.
Proof. intros H. apply keeps_quiet; [done|]. intros w a _ Ha. by apply H. Qed.

Lemma keeps_weaken {A} rt (c : M A) (Q Q' : A → Prop) :
  (∀ a, Q a → Q' a) → keeps_refresh_token rt c Q → keeps_refresh_token rt c Q'.
Proof. intros HQ Hc w Hw. destruct (Hc w Hw). eauto. Qed.

(** The invariant of a sequence follows from the invariants of its
    parts. *)
Lemma keeps_bind {A B} rt (c : M A) (k : A → M B) (Q : A → Prop) (R : B → Prop) :
  keeps_refresh_token rt c Q →
  (∀ a, Q a → keeps_refresh_token rt (k a) R) →
  keeps_refresh_token rt (c ≫= k) R.
Proof.
  intros Hc Hk w Hw. unfold mbind, M_bind.
  destruct (Hc w Hw) as [Hw1 Hq]. destruct (c w) as [[a|e] w1]; simpl in *.
  - by apply Hk; [apply Hq|].
  - split; [done|]. intros b [=].
Qed.

Lemma keeps_try {A} rt (c h : M A) (Q : A → Prop) :
  keeps_refresh_token rt c Q →
  keeps_refresh_token rt h Q →
  keeps_refresh_token rt (try_except c h) Q.
Proof.
  intros Hc Hh w Hw. unfold try_except.
  destruct (Hc w Hw) as [Hw1 Hq]. destruct (c w) as [[a|e] w1]; simpl in *.
  - split; [done|]. intros a' [= <-]. by apply Hq.
  - by apply Hh.
Qed.

Lemma keeps_send rt net rq : keeps_refresh_token rt (send net rq) (λ _, True).
Proof. apply keeps_any. intros w. unfold send. by destruct (net _ _). Qed.

(** Saving a dictionary that carries the refresh token keeps it. *)
Lemma keeps_dump rt d :
  d !! "refresh_token" = Some rt → keeps_refresh_token rt (json_dump d) (λ _, True).
Proof.
  intros Hd w Hw. split; [|done]. unfold json_dump.
  destruct (disk_writable w); [|done]. by exists d.
Qed.

Section App2_keeps.
Variables CLIENT_ID CLIENT_SECRET API_KEY : string.
Variable int_of_str : string → option Z.
Variable py_repr : json → string.
Variable net : network.

Lemma keeps_load2 rt :
  keeps_refresh_token rt App2.load_tokens (λ t, t !! "refresh_token" = Some rt).
Proof.
  apply keeps_quiet; intros w; rewrite load_tokens2_run; [done|].
  intros a (t & Ht & Hrt) [= <-]. by rewrite Ht.
Qed.

Lemma keeps_refresh2 rt sent :
  keeps_refresh_token rt
    (App2._refresh_access_token CLIENT_ID CLIENT_SECRET int_of_str net sent)
    (λ t, t !! "refresh_token" = Some sent).
Proof.
  apply keeps_quiet; intros w.
  - by rewrite refresh2_world.
  - intros a _. rewrite refresh2_run. cbv zeta.
    repeat case_match; intros [= <-]. apply refreshed_refresh_token.
Qed.

Lemma keeps_headers2 rt :
  keeps_refresh_token rt
    (App2._google_headers CLIENT_ID CLIENT_SECRET int_of_str py_repr net) (λ _, True).
Proof.
  unfold App2._google_headers.
  apply (keeps_bind _ _ _ _ _ (keeps_load2 rt)). intros tokens Ht.
  destruct (dict_falsy tokens); [by apply keeps_ret|].
  apply (keeps_bind _ _ _ (λ _, True)); [by apply keeps_lift|]. intros e _.
  apply (keeps_bind _ _ _ (λ _, True)); [by apply keeps_any|]. intros t _.
  apply (keeps_bind _ _ _ (λ _, True)).
  - destruct (_ <=? _)%Z; [|by apply keeps_ret].
    destruct (negb _); [by apply keeps_ret|].
    apply keeps_try; [|by apply keeps_ret].
    apply (keeps_bind _ _ _ (λ v, v = rt)).
    { apply keeps_lift. unfold subscript. rewrite Ht. by intros a [= <-]. }
    intros ? ->.
    apply (keeps_bind _ _ _ (λ t, t !! "refresh_token" = Some rt));
      [apply keeps_refresh2|].
    intros fresh Hf.
    apply (keeps_bind _ _ _ (λ _, True)); [by apply keeps_dump|].
    intros _ _. by apply keeps_ret.
  - intros [tokens'|] _; [|by apply keeps_ret].
    destruct (negb _); by apply keeps_ret.
Qed.

Lemma keeps_relay2 rt r : keeps_refresh_token rt (App2.relay r) (λ _, True).
Proof.
  unfold App2.relay. apply keeps_any. intros w. unfold response_json.
  by destruct (json_body r).
Qed.

Lemma keeps_require_api_key rt func req :
  (∀ req, keeps_refresh_token rt (func req) (λ _, True)) →
  keeps_refresh_token rt (App2.require_api_key API_KEY func req) (λ _, True).
Proof.
  intros Hf. unfold App2.require_api_key.
  repeat case_match; auto; by apply keeps_ret.
Qed.

Lemma keeps_gmail_unread2 rt req :
  keeps_refresh_token rt
    (App2.gmail_unread CLIENT_ID CLIENT_SECRET API_KEY int_of_str py_repr net req)
    (λ _, True).
Proof.
  unfold App2.gmail_unread. apply keeps_require_api_key. clear req. intros req.
  apply (keeps_bind _ _ _ _ _ (keeps_headers2 rt)). intros [hdrs|] _;
    [|by apply keeps_ret].
  unfold requests_get.
  apply (keeps_bind _ _ _ _ _ (keeps_send rt _ _)). intros r _.
  apply (keeps_bind _ _ _ (λ _, True)); [|intros; apply keeps_relay2].
  destruct (_ =? _)%Z; [|by apply keeps_ret].
  apply (keeps_bind _ _ _ _ _ (keeps_load2 rt)). intros tokens Ht.
  destruct (truthy _); [|by apply keeps_ret].
  apply keeps_try; [|by apply keeps_ret].
  apply (keeps_bind _ _ _ (λ v, v = rt)).
  { apply keeps_lift. unfold subscript. rewrite Ht. by intros a [= <-]. }
  intros ? ->.
  apply (keeps_bind _ _ _ (λ t, t !! "refresh_token" = Some rt));
    [apply keeps_refresh2|].
  intros fresh Hf.
  apply (keeps_bind _ _ _ (λ _, True)); [by apply keeps_dump|]. intros _ _.
  apply (keeps_bind _ _ _ _ _ (keeps_headers2 rt)). intros hdrs' _.
  apply keeps_send.
Qed.

Lemma keeps_handlers2 rt data req :
  keeps_refresh_token rt
    (App2.gmail_message CLIENT_ID CLIENT_SECRET API_KEY int_of_str py_repr net req)
    (λ _, True)
  ∧ keeps_refresh_token rt
      (App2.gmail_send CLIENT_ID CLIENT_SECRET API_KEY int_of_str py_repr net data req)
      (λ _, True)
  ∧ keeps_refresh_token rt
      (App2.gmail_mark_read CLIENT_ID CLIENT_SECRET API_KEY int_of_str py_repr net data req)
      (λ _, True)
  ∧ keeps_refresh_token rt
      (App2.gmail_archive CLIENT_ID CLIENT_SECRET API_KEY int_of_str py_repr net data req)
      (λ _, True)
  ∧ keeps_refresh_token rt
      (App2.calendar_events CLIENT_ID CLIENT_SECRET API_KEY int_of_str py_repr net req)
      (λ _, True)
  ∧ keeps_refresh_token rt
      (App2.contacts_list CLIENT_ID CLIENT_SECRET API_KEY int_of_str py_repr net req)
      (λ _, True)
  ∧ keeps_refresh_token rt
      (App2.contacts_search CLIENT_ID CLIENT_SECRET API_KEY int_of_str py_repr net req)
      (λ _, True)
  ∧ keeps_refresh_token rt
      (App2.contacts_get CLIENT_ID CLIENT_SECRET API_KEY int_of_str py_repr net req)
      (λ _, True).
Proof.
  repeat apply conj;
    unfold App2.gmail_message, App2.gmail_send, App2.gmail_mark_read, App2.gmail_archive,
      App2.modify_labels, App2.calendar_events, App2.contacts_list, App2.contacts_search,
      App2.contacts_get;
    apply keeps_require_api_key; clear req; intros req;
    unfold requests_get, requests_post_json;
    (apply (keeps_bind _ _ _ _ _ (keeps_headers2 rt)); intros [hdrs|] _;
       [|by apply keeps_ret]);
    repeat case_match; try (by apply keeps_ret);
    try (apply (keeps_bind _ _ _ (λ _, True)); [by apply keeps_lift|]; intros ? _);
    (apply (keeps_bind _ _ _ _ _ (keeps_send rt _ _)); intros r _);
    apply keeps_relay2.
Qed.

End App2_keeps.

Section App1_keeps.
Variables CLIENT_ID CLIENT_SECRET API_KEY : option string.
Variable py_repr : json → string.
Variable int_of_str : string → option Z.
Variable net : network.

Lemma keeps_load1 rt :
  keeps_refresh_token rt App1.load_tokens
    (λ o, ∃ t, o = Some t ∧ t !! "refresh_token" = Some rt).
Proof.
  apply keeps_quiet; intros w; rewrite load_tokens1_run.
  - destruct (tokens_file w) eqn:E; simpl; by rewrite ?E.
  - intros a (t & Ht & Hrt). rewrite Ht. intros [= <-]. eauto.
Qed.

(** In [src/App.py] the refresh itself saves. *)
Lemma keeps_refresh1 rt :
  keeps_refresh_token rt
    (App1.refresh_access_token CLIENT_ID CLIENT_SECRET net rt) (λ _, True).
Proof.
  intros w Hw. split; [|done]. rewrite refresh1_run. cbv zeta.
  destruct Hw as (t & Ht & Hrt).
  repeat case_match; simpl; try (by exists t).
  eexists. split; [reflexivity | apply refreshed_refresh_token].
Qed.

Lemma keeps_get1 rt :
  keeps_refresh_token rt (App1.get_access_token CLIENT_ID CLIENT_SECRET net) (λ _, True).
Proof.
  unfold App1.get_access_token.
  apply (keeps_bind _ _ _ _ _ (keeps_load1 rt)). intros o (t & -> & Ht).
  destruct (dict_falsy t); [by apply keeps_ret|].
  apply (keeps_bind _ _ _ (λ _, True)); [by apply keeps_any|]. intros n _.
  apply (keeps_bind _ _ _ (λ _, True)); [by apply keeps_lift|]. intros limit _.
  apply (keeps_bind _ _ _ (λ _, True)); [|intros; by apply keeps_lift].
  destruct (_ >=? _)%Z; [|by apply keeps_ret].
  apply (keeps_bind _ _ _ (λ v, v = rt)).
  { apply keeps_lift. unfold subscript. rewrite Ht. by intros a [= <-]. }
  intros ? ->. apply (keeps_weaken _ _ (λ _, True)); [done|apply keeps_refresh1].
Qed.

Lemma keeps_handlers1 rt req :
  keeps_refresh_token rt
    (App1.gmail_unread CLIENT_ID CLIENT_SECRET API_KEY py_repr net req) (λ _, True)
  ∧ keeps_refresh_token rt
      (App1.gmail_message CLIENT_ID CLIENT_SECRET API_KEY py_repr net req) (λ _, True)
  ∧ keeps_refresh_token rt
      (App1.cal_events CLIENT_ID CLIENT_SECRET API_KEY py_repr net req) (λ _, True)
  ∧ keeps_refresh_token rt
      (App1.contacts_list CLIENT_ID CLIENT_SECRET API_KEY py_repr net int_of_str req)
      (λ _, True)
  ∧ keeps_refresh_token rt
      (App1.contacts_search CLIENT_ID CLIENT_SECRET API_KEY py_repr net int_of_str req)
      (λ _, True)
  ∧ keeps_refresh_token rt
      (App1.contacts_get CLIENT_ID CLIENT_SECRET API_KEY py_repr net req) (λ _, True).
Proof.
  repeat apply conj;
    unfold App1.gmail_unread, App1.gmail_message, App1.cal_events, App1.contacts_list,
      App1.contacts_search, App1.contacts_get, requests_get;
    (destruct (negb (App1.require_api_key _ _)); [by apply keeps_ret|]);
    (apply (keeps_bind _ _ _ _ _ (keeps_get1 rt)); intros token _);
    repeat case_match; try (by apply keeps_ret);
    try (apply (keeps_bind _ _ _ (λ _, True)); [by apply keeps_lift|]; intros ? _);
    (apply (keeps_bind _ _ _ _ _ (keeps_send rt _ _)); intros r _);
    by apply keeps_ret.
Qed.

End App1_keeps.

Lemma keeps_retains {A} (c : M A) :
  (∀ rt, keeps_refresh_token rt c (λ _, True)) → retains_refresh_token c.
Proof. intros H rt w Hw. by apply H. Qed.

(** X5.  A handler never loses the refresh token: if the store holds a
    record with a refresh token before a request, it holds a record with
    the same refresh token afterwards, whatever the request and whatever
    the remote side answers, also when the refresh fails or the token file
    cannot be opened for writing.
    This holds for [_google_headers] and the handlers of [src/app.py], and
    for [get_access_token] and the handlers of [src/App.py]. *)
Theorem X5_handlers_retain_the_refresh_token :
  (∀ CLIENT_ID CLIENT_SECRET API_KEY int_of_str py_repr net data req,
     retains_refresh_token
       (App2._google_headers CLIENT_ID CLIENT_SECRET int_of_str py_repr net)
     ∧ retains_refresh_token
         (App2.gmail_unread CLIENT_ID CLIENT_SECRET API_KEY int_of_str py_repr net req)
     ∧ retains_refresh_token
         (App2.gmail_message CLIENT_ID CLIENT_SECRET API_KEY int_of_str py_repr net req)
     ∧ retains_refresh_token
         (App2.gmail_send CLIENT_ID CLIENT_SECRET API_KEY int_of_str py_repr net data req)
     ∧ retains_refresh_token
         (App2.gmail_mark_read CLIENT_ID CLIENT_SECRET API_KEY int_of_str py_repr net data req)
     ∧ retains_refresh_token
         (App2.gmail_archive CLIENT_ID CLIENT_SECRET API_KEY int_of_str py_repr net data req)
     ∧ retains_refresh_token
         (App2.calendar_events CLIENT_ID CLIENT_SECRET API_KEY int_of_str py_repr net req)
     ∧ retains_refresh_token
         (App2.contacts_list CLIENT_ID CLIENT_SECRET API_KEY int_of_str py_repr net req)
     ∧ retains_refresh_token
         (App2.contacts_search CLIENT_ID CLIENT_SECRET API_KEY int_of_str py_repr net req)
     ∧ retains_refresh_token
         (App2.contacts_get CLIENT_ID CLIENT_SECRET API_KEY int_of_str py_repr net req))
  ∧ (∀ CLIENT_ID CLIENT_SECRET API_KEY py_repr int_of_str net req,
       retains_refresh_token (App1.get_access_token CLIENT_ID CLIENT_SECRET net)
       ∧ retains_refresh_token
           (App1.gmail_unread CLIENT_ID CLIENT_SECRET API_KEY py_repr net req)
       ∧ retains_refresh_token
           (App1.gmail_message CLIENT_ID CLIENT_SECRET API_KEY py_repr net req)
       ∧ retains_refresh_token
           (App1.cal_events CLIENT_ID CLIENT_SECRET API_KEY py_repr net req)
       ∧ retains_refresh_token
           (App1.contacts_list CLIENT_ID CLIENT_SECRET API_KEY py_repr net int_of_str req)
       ∧ retains_refresh_token
           (App1.contacts_search CLIENT_ID CLIENT_SECRET API_KEY py_repr net int_of_str req)
       ∧ retains_refresh_token
           (App1.contacts_get CLIENT_ID CLIENT_SECRET API_KEY py_repr net req)).
Proof.
  split.
  - intros.
    pose proof (λ rt, keeps_handlers2 CLIENT_ID CLIENT_SECRET API_KEY int_of_str
                        py_repr net rt data req) as H.
    repeat apply conj; apply keeps_retains; intros rt;
      [apply keeps_headers2 | apply keeps_gmail_unread2 | apply (H rt)..].
  - intros.
    pose proof (λ rt, keeps_handlers1 CLIENT_ID CLIENT_SECRET API_KEY py_repr
                        int_of_str net rt req) as H.
    repeat apply conj; apply keeps_retains; intros rt; [apply keeps_get1 | apply (H rt)..].
Qed.

(** A rejected [gmail_unread] whose forced refresh is answered with a
    refresh token of its own keeps the stored one. *)
Lemma X5_handlers_retain_the_refresh_token_witness :
  holds_refresh_token (JStr "rt0")
    (App2.gmail_unread "" "" "" no_int no_repr rejecting_bearer bare_request
       (world_with (Stored fresh_record))).2
  ∧ holds_refresh_token (JStr "rt0")
      (App1.get_access_token None None unreachable (world_with (Stored stale_record))).2.
Proof.
  destruct X5_handlers_retain_the_refresh_token as (H2 & H1).
  split.
  - apply (H2 "" "" "" no_int no_repr rejecting_bearer None bare_request).
    exists fresh_record. split; reflexivity.
  - apply (H1 None None None no_repr no_int unreachable bare_request).
    exists stale_record. split; reflexivity.
Defined.

(** ** When [_google_headers] raises *)





(** ** The code exchange *)

Section Exchange_facts.
Variables CLIENT_ID CLIENT_SECRET REDIRECT_URI : string.
Variable int_of_str : string → option Z.
Variable str_of_exn : exn → string.
Variable net : network.

Local Abbreviation exchange_request code :=
  (exchange_request2 CLIENT_ID CLIENT_SECRET REDIRECT_URI code).



End Exchange_facts.

Section Exchange1_facts.
Variables CLIENT_ID CLIENT_SECRET REDIRECT_URI : option string.
Variable net : network.


End Exchange1_facts.


(** X8.  The code exchange of [src/app.py] followed by the first use of the
    credential.  If the token endpoint granted an access token for more
    than 60 seconds, [_google_headers] returns the header with that access
    token and makes no call.  If it granted 60 seconds or less, the
    credential counts as expired on arrival: [_google_headers] refreshes at
    once with the refresh token of the answer, and returns absent when the
    answer had none. *)
Theorem X8_first_use_after_code_exchange :
  ∀ CLIENT_ID CLIENT_SECRET REDIRECT_URI int_of_str str_of_exn py_repr net
    req code r j ttl tok w,
    args req !! "code" = Some code →
    code ≠ "" →
    net (List.length (calls w))
      (exchange_request2 CLIENT_ID CLIENT_SECRET REDIRECT_URI code) = Answer r →
    is_error_status (status_code r) = false →
    json_body r = Some j →
    py_int int_of_str (dict_get j "expires_in" (JInt 3600)) = Ok ttl →
    j !! "access_token" = Some tok →
    truthy tok = true →
    disk_writable w = true →
    let w1 :=
      (App2.auth_callback CLIENT_ID CLIENT_SECRET REDIRECT_URI int_of_str str_of_exn
         net req w).2 in
    let google_headers :=
      App2._google_headers CLIENT_ID CLIENT_SECRET int_of_str py_repr net in
    ((60 < ttl)%Z →
     google_headers w1
     = (Ok (Some [("Authorization", "Bearer " ++ py_str py_repr tok)]), w1))
    ∧ ((ttl ≤ 60)%Z →
       ∀ rt, j !! "refresh_token" = Some rt → truthy rt = true →
             calls (google_headers w1).2
             = (calls w1 ++ [refresh_request2 CLIENT_ID CLIENT_SECRET rt])%list)
    ∧ ((ttl ≤ 60)%Z →
       j !! "refresh_token" = None →
       google_headers w1 = (Ok None, w1)).
Proof.
  intros * Hc Hne Hn Hs Hj Ht Htok Htr Hd w1 google_headers.
  set (t' := <["expires_at" := JInt (now w + ttl - 60)]> j).
  assert (tokens_file w1 = Stored t') as Hf by (by eapply callback2_ok).
  assert (now w1 = now w) as Hnow.
  { unfold w1, App2.auth_callback. rewrite Hc.
    destruct (String.eqb_spec code "") as [|_]; [done|].
    unfold try_except_as. run. erewrite exchange2_ok by eauto.
    unfold App2.save_tokens, json_dump. simpl. by rewrite Hd. }
  assert (py_int int_of_str (dict_get t' "expires_at" (JInt 0))
          = Ok (now w + ttl - 60)%Z) as He.
  { unfold t', dict_get. by rewrite lookup_insert_eq. }
  assert (t' !! "access_token" = Some tok) as Ha.
  { unfold t'. by rewrite lookup_insert_ne. }
  split; [|split].
  - intros Hlong. unfold google_headers.
    rewrite (headers2_fresh _ _ _ _ _ t' (now w + ttl - 60)); try done.
    + unfold authorization2, dict_get. by rewrite Ha, Htr.
    + by eapply dict_falsy_false.
    + lia.
  - intros Hshort rt Hrt Hrtr. unfold google_headers.
    eapply headers2_expired_calls; eauto; [lia|].
    unfold t'. by rewrite lookup_insert_ne.
  - intros Hshort Hrt. unfold google_headers.
    rewrite (headers2_stored_run _ _ _ _ _ t' (now w + ttl - 60)); try done.
    + destruct (Z.leb_spec (now w + ttl - 60) (now w1)); [|lia].
      unfold dict_get, t'. by rewrite lookup_insert_ne, Hrt.
    + by eapply dict_falsy_false.
Qed.

Lemma X8_first_use_after_code_exchange_witness :
  App2._google_headers "" "" no_int no_repr (granting answer_3600)
    (App2.auth_callback "" "" "" no_int no_exn_text (granting answer_3600)
       callback_request (world_with NoFile)).2
  = (Ok (Some [("Authorization", "Bearer at1")]),
     (App2.auth_callback "" "" "" no_int no_exn_text (granting answer_3600)
        callback_request (world_with NoFile)).2)
  ∧ App2._google_headers "" "" no_int no_repr (granting answer_30)
      (App2.auth_callback "" "" "" no_int no_exn_text (granting answer_30)
         callback_request (world_with NoFile)).2
    = (Ok None,
       (App2.auth_callback "" "" "" no_int no_exn_text (granting answer_30)
          callback_request (world_with NoFile)).2).
Proof.
  split.
  - refine (proj1 (X8_first_use_after_code_exchange "" "" "" no_int no_exn_text no_repr
                     (granting answer_3600) callback_request "c0d3"
                     (mk_response 200 "" (Some answer_3600)) answer_3600 3600%Z
                     (JStr "at1") (world_with NoFile) _ _ _ _ _ _ _ _ _) _);
      try reflexivity.
    discriminate.
  - refine (proj2 (proj2 (X8_first_use_after_code_exchange "" "" "" no_int no_exn_text
                            no_repr (granting answer_30) callback_request "c0d3"
                            (mk_response 200 "" (Some answer_30)) answer_30 30%Z
                            (JStr "at1") (world_with NoFile) _ _ _ _ _ _ _ _ _)) _ _);
      try reflexivity.
    + discriminate.
    + vm_compute. discriminate.
Defined.

(** ** Requests that are refused before any call to an API *)

Section App2_validation.
Variables CLIENT_ID CLIENT_SECRET API_KEY : string.
Variable int_of_str : string → option Z.
Variable py_repr : json → string.
Variable net : network.

Local Abbreviation google_headers :=
  (App2._google_headers CLIENT_ID CLIENT_SECRET int_of_str py_repr net).

Lemma stops_after_headers2 (answer : flask_response)
    (k : list (string * string) → M flask_response) w :
  (∀ hdrs, k hdrs = mret answer) →
  (headers ← google_headers;
   match headers with
   | None => mret App2._need_auth
   | Some headers => k headers
   end) w
  = after_google_headers (google_headers w) answer.
Proof.
  intros Hk. unfold mbind, M_bind, after_google_headers.
  destruct (google_headers w) as [[[hdrs|]|x] w']; [|done..].
  by rewrite Hk.
Qed.

Lemma bad_requests2 data req w :
  key_accepted API_KEY req = true →
  (arg_missing req "id" = true →
   App2.gmail_message CLIENT_ID CLIENT_SECRET API_KEY int_of_str py_repr net req w
   = after_google_headers (google_headers w) (App2.bad_request "id required"))
  ∧ (truthy (dict_get (default ∅ data) "to" JNull) = false →
     App2.gmail_send CLIENT_ID CLIENT_SECRET API_KEY int_of_str py_repr net data req w
     = after_google_headers (google_headers w) (App2.bad_request "to required"))
  ∧ (truthy (dict_get (default ∅ data) "id" JNull) = false →
     App2.gmail_mark_read CLIENT_ID CLIENT_SECRET API_KEY int_of_str py_repr net data req w
     = after_google_headers (google_headers w) (App2.bad_request "id required")
     ∧ App2.gmail_archive CLIENT_ID CLIENT_SECRET API_KEY int_of_str py_repr net data req w
       = after_google_headers (google_headers w) (App2.bad_request "id required"))
  ∧ (arg_missing req "q" = true →
     App2.contacts_search CLIENT_ID CLIENT_SECRET API_KEY int_of_str py_repr net req w
     = after_google_headers (google_headers w) (App2.bad_request "q required"))
  ∧ (arg_missing req "id" = true →
     App2.contacts_get CLIENT_ID CLIENT_SECRET API_KEY int_of_str py_repr net req w
     = after_google_headers (google_headers w) (App2.bad_request "id required")).
Proof.
  intros Hk. unfold arg_missing.
  repeat apply conj; intros Hm; try split;
    unfold App2.gmail_message, App2.gmail_send, App2.gmail_mark_read, App2.gmail_archive,
      App2.modify_labels, App2.contacts_search, App2.contacts_get;
    rewrite require_api_key2_accepted by done;
    apply stops_after_headers2; intros hdrs;
    try (by rewrite Hm);
    by destruct (args req !! _) as [v|]; [rewrite Hm|].
Qed.

(** The [limit] of the contact handlers goes through [int()]. *)
Lemma contacts_limit2 req hdrs w w1 :
  key_accepted API_KEY req = true →
  google_headers w = (Ok (Some hdrs), w1) →
  (int_of_str (args_get req "limit" "50") = None →
   App2.contacts_list CLIENT_ID CLIENT_SECRET API_KEY int_of_str py_repr net req w
   = (Raise ValueError, w1))
  ∧ (∀ n, int_of_str (args_get req "limit" "50") = Some n →
          App2.contacts_list CLIENT_ID CLIENT_SECRET API_KEY int_of_str py_repr net req w
          = (r ← requests_get net "https://people.googleapis.com/v1/otherContacts" hdrs
                   [("pageSize", pretty n);
                    ("readMask", "names,emailAddresses,phoneNumbers")];
             App2.relay r) w1).
Proof.
  intros Hk Hh. unfold App2.contacts_list.
  rewrite require_api_key2_accepted by done.
  split; [intros Hi|intros n Hi]; unfold mbind at 1, M_bind at 1; rewrite Hh;
    unfold mbind at 1, M_bind at 1, lift, py_int; by rewrite Hi.
Qed.

End App2_validation.

Section App1_validation.
Variables CLIENT_ID CLIENT_SECRET API_KEY : option string.
Variable py_repr : json → string.
Variable int_of_str : string → option Z.
Variable net : network.

Local Abbreviation get_access_token :=
  (App1.get_access_token CLIENT_ID CLIENT_SECRET net).

Lemma bad_requests1 req w :
  App1.require_api_key API_KEY req = true →
  (arg_missing req "id" = true →
   App1.gmail_message CLIENT_ID CLIENT_SECRET API_KEY py_repr net req w
   = after_get_access_token (get_access_token w)
       (mk_flask_response (BText "Missing id") 400 None)
   ∧ App1.contacts_get CLIENT_ID CLIENT_SECRET API_KEY py_repr net req w
     = after_get_access_token (get_access_token w)
         (mk_flask_response (BText "Missing id") 400 None))
  ∧ (arg_missing req "q" = true →
     App1.contacts_search CLIENT_ID CLIENT_SECRET API_KEY py_repr net int_of_str req w
     = after_get_access_token (get_access_token w)
         (mk_flask_response (BText "Missing q") 400 None)).
Proof.
  intros Hk. unfold arg_missing.
  split; intros Hm; try split;
    unfold App1.gmail_message, App1.contacts_get, App1.contacts_search,
      after_get_access_token;
    rewrite Hk; simpl; unfold mbind, M_bind;
    destruct (get_access_token w) as [[token|x] w']; try done;
    destruct (truthy token); simpl; try done;
    by destruct (args req !! _) as [v|]; [rewrite Hm|].
Qed.

Lemma contacts_limit1 req token w w1 :
  App1.require_api_key API_KEY req = true →
  get_access_token w = (Ok token, w1) →
  truthy token = true →
  (int_of_str (args_get req "limit" "50") = None →
   App1.contacts_list CLIENT_ID CLIENT_SECRET API_KEY py_repr net int_of_str req w
   = (Raise ValueError, w1))
  ∧ (∀ n, int_of_str (args_get req "limit" "50") = Some n →
          App1.contacts_list CLIENT_ID CLIENT_SECRET API_KEY py_repr net int_of_str req w
          = (r ← requests_get net "https://people.googleapis.com/v1/people/me/connections"
                   (App1.bearer py_repr token)
                   [("personFields", "names,emailAddresses,phoneNumbers,organizations");
                    ("pageSize", pretty n)];
             mret (App1.relay r)) w1).
Proof.
  intros Hk Hg Ht. unfold App1.contacts_list. rewrite Hk. simpl.
  split; [intros Hi|intros n Hi]; unfold mbind at 1, M_bind at 1; rewrite Hg, Ht; simpl;
    unfold mbind at 1, M_bind at 1, lift, py_int; by rewrite Hi.
Qed.

End App1_validation.

(** X9.  A request that lacks a required field is answered without any
    call to an API, but only after the credential check, which may itself
    refresh: the answer is Not Authorized when there is no usable
    credential, Bad Request (status 400) when there is one, and the world
    is as the credential check left it.  This holds for [gmail_message],
    [gmail_send], [gmail_mark_read], [gmail_archive], [contacts_search] and
    [contacts_get] of [src/app.py] and for [gmail_message], [contacts_get]
    and [contacts_search] of [src/App.py]. *)
Theorem X9_bad_requests_stop_after_the_credential_check :
  (∀ CLIENT_ID CLIENT_SECRET API_KEY int_of_str py_repr net data req w,
     key_accepted API_KEY req = true →
     let google_headers :=
       App2._google_headers CLIENT_ID CLIENT_SECRET int_of_str py_repr net in
     (arg_missing req "id" = true →
      App2.gmail_message CLIENT_ID CLIENT_SECRET API_KEY int_of_str py_repr net req w
      = after_google_headers (google_headers w) (App2.bad_request "id required"))
     ∧ (truthy (dict_get (default ∅ data) "to" JNull) = false →
        App2.gmail_send CLIENT_ID CLIENT_SECRET API_KEY int_of_str py_repr net data req w
        = after_google_headers (google_headers w) (App2.bad_request "to required"))
     ∧ (truthy (dict_get (default ∅ data) "id" JNull) = false →
        App2.gmail_mark_read CLIENT_ID CLIENT_SECRET API_KEY int_of_str py_repr net
          data req w
        = after_google_headers (google_headers w) (App2.bad_request "id required")
        ∧ App2.gmail_archive CLIENT_ID CLIENT_SECRET API_KEY int_of_str py_repr net
            data req w
          = after_google_headers (google_headers w) (App2.bad_request "id required"))
     ∧ (arg_missing req "q" = true →
        App2.contacts_search CLIENT_ID CLIENT_SECRET API_KEY int_of_str py_repr net req w
        = after_google_headers (google_headers w) (App2.bad_request "q required"))
     ∧ (arg_missing req "id" = true →
        App2.contacts_get CLIENT_ID CLIENT_SECRET API_KEY int_of_str py_repr net req w
        = after_google_headers (google_headers w) (App2.bad_request "id required")))
  ∧ (∀ CLIENT_ID CLIENT_SECRET API_KEY py_repr int_of_str net req w,
       App1.require_api_key API_KEY req = true →
       let get_access_token := App1.get_access_token CLIENT_ID CLIENT_SECRET net in
       (arg_missing req "id" = true →
        App1.gmail_message CLIENT_ID CLIENT_SECRET API_KEY py_repr net req w
        = after_get_access_token (get_access_token w)
            (mk_flask_response (BText "Missing id") 400 None)
        ∧ App1.contacts_get CLIENT_ID CLIENT_SECRET API_KEY py_repr net req w
          = after_get_access_token (get_access_token w)
              (mk_flask_response (BText "Missing id") 400 None))
       ∧ (arg_missing req "q" = true →
          App1.contacts_search CLIENT_ID CLIENT_SECRET API_KEY py_repr net int_of_str req w
          = after_get_access_token (get_access_token w)
              (mk_flask_response (BText "Missing q") 400 None))).
Proof.
  split; intros.
  - by apply bad_requests2.
  - by apply bad_requests1.
Qed.

(** A send without addressee on an expired record: the refresh is made,
    then the request is refused. *)
Lemma X9_bad_requests_stop_after_the_credential_check_witness :
  App2.gmail_send "" "" "" no_int no_repr (granting answer_3600) None bare_request
    (world_with (Stored stale_record))
  = (Ok (App2.bad_request "to required"),
     written (refreshed (JStr "rt0") (1000 + 3600 - 60) answer_3600)
       (logged (refresh_request2 "" "" (JStr "rt0"))
          (world_with (Stored stale_record))))
  ∧ App1.gmail_message None None (Some "k3y") no_repr unreachable
      (mk_flask_request {["x-api-key" := "k3y"]} ∅) (world_with NoFile)
    = (Ok App1._need_auth, world_with NoFile).
Proof.
  destruct X9_bad_requests_stop_after_the_credential_check as (H2 & H1).
  split.
  - refine (proj1 (proj2 (H2 "" "" "" no_int no_repr (granting answer_3600) None
                            bare_request (world_with (Stored stale_record)) _)) _);
      reflexivity.
  - refine (proj1 (proj1 (H1 None None (Some "k3y") no_repr no_int unreachable
                            (mk_flask_request {["x-api-key" := "k3y"]} ∅)
                            (world_with NoFile) _) _));
      reflexivity.
Defined.

(** X10.  The [limit] argument of [contacts_list] is converted with
    [int()] after the credential check and before the call: a limit that
    is no number makes the handler raise [ValueError] (an internal error
    for the caller) without any call to the People API; a limit that is a
    number is sent on as [pageSize], written in decimal.  In both files. *)
Theorem X10_contacts_limit_must_be_a_number :
  (∀ CLIENT_ID CLIENT_SECRET API_KEY int_of_str py_repr net req hdrs w w1,
     key_accepted API_KEY req = true →
     App2._google_headers CLIENT_ID CLIENT_SECRET int_of_str py_repr net w
       = (Ok (Some hdrs), w1) →
     (int_of_str (args_get req "limit" "50") = None →
      App2.contacts_list CLIENT_ID CLIENT_SECRET API_KEY int_of_str py_repr net req w
      = (Raise ValueError, w1))
     ∧ (∀ n, int_of_str (args_get req "limit" "50") = Some n →
             App2.contacts_list CLIENT_ID CLIENT_SECRET API_KEY int_of_str py_repr net req w
             = (r ← requests_get net "https://people.googleapis.com/v1/otherContacts" hdrs
                      [("pageSize", pretty n);
                       ("readMask", "names,emailAddresses,phoneNumbers")];
                App2.relay r) w1))
  ∧ (∀ CLIENT_ID CLIENT_SECRET API_KEY py_repr int_of_str net req token w w1,
       App1.require_api_key API_KEY req = true →
       App1.get_access_token CLIENT_ID CLIENT_SECRET net w = (Ok token, w1) →
       truthy token = true →
       (int_of_str (args_get req "limit" "50") = None →
        App1.contacts_list CLIENT_ID CLIENT_SECRET API_KEY py_repr net int_of_str req w
        = (Raise ValueError, w1))
       ∧ (∀ n, int_of_str (args_get req "limit" "50") = Some n →
               App1.contacts_list CLIENT_ID CLIENT_SECRET API_KEY py_repr net int_of_str req w
               = (r ← requests_get net
                        "https://people.googleapis.com/v1/people/me/connections"
                        (App1.bearer py_repr token)
                        [("personFields",
                          "names,emailAddresses,phoneNumbers,organizations");
                         ("pageSize", pretty n)];
                  mret (App1.relay r)) w1)).
Proof.
  split; intros.
  - by apply contacts_limit2.
  - by apply contacts_limit1.
Qed.

Lemma X10_contacts_limit_must_be_a_number_witness :
  App2.contacts_list "" "" "" int_of_few no_repr unreachable worded_limit_request
    (world_with (Stored fresh_record))
  = (Raise ValueError, world_with (Stored fresh_record))
  ∧ (App1.contacts_list None None (Some "k3y") no_repr rejecting_bearer int_of_few
       (mk_flask_request {["x-api-key" := "k3y"]} ∅)
       (world_with (Stored fresh_record))).2
    = logged
        (mk_request "GET" "https://people.googleapis.com/v1/people/me/connections"
           [("Authorization", "Bearer at0")]
           [("personFields", "names,emailAddresses,phoneNumbers,organizations");
            ("pageSize", "50")] [])
        (world_with (Stored fresh_record)).
Proof.
  destruct X10_contacts_limit_must_be_a_number as (H2 & H1).
  split.
  - refine (proj1 (H2 "" "" "" int_of_few no_repr unreachable worded_limit_request
                     [("Authorization", "Bearer at0")]
                     (world_with (Stored fresh_record)) (world_with (Stored fresh_record))
                     _ _) _);
      reflexivity.
  - assert (App1.contacts_list None None (Some "k3y") no_repr rejecting_bearer int_of_few
              (mk_flask_request {["x-api-key" := "k3y"]} ∅)
              (world_with (Stored fresh_record))
            = (r ← requests_get rejecting_bearer
                     "https://people.googleapis.com/v1/people/me/connections"
                     (App1.bearer no_repr (JStr "at0"))
                     [("personFields", "names,emailAddresses,phoneNumbers,organizations");
                      ("pageSize", pretty 50%Z)];
               mret (App1.relay r)) (world_with (Stored fresh_record))) as ->.
    { refine (proj2 (H1 None None (Some "k3y") no_repr int_of_few rejecting_bearer
                       (mk_flask_request {["x-api-key" := "k3y"]} ∅) (JStr "at0")
                       (world_with (Stored fresh_record))
                       (world_with (Stored fresh_record)) _ _ _) 50%Z _);
        reflexivity. }
    reflexivity.
Defined.

(** ** The parameters of the calendar query *)

Local Set Warnings "-clear-no-such-hyp".

Lemma forward_arg_in req k params k' v :
  In (k', v) (App2.forward_arg req k params)
  ↔ In (k', v) params ∨ (k' = k ∧ args req !! k = Some v).
Proof.
  unfold App2.forward_arg. destruct (args req !! k) as [x|].
  - rewrite in_app_iff. simpl. naive_solver.
  - naive_solver.
Qed.

Lemma truthy_params_in params k v :
  In (k, v) (App1.truthy_params params) ↔ In (k, Some v) params ∧ v ≠ "".
Proof.
  induction params as [|[k' [x|]] rest IH]; simpl.
  - naive_solver.
  - destruct (String.eqb_spec x "") as [->|Hx]; simpl; rewrite IH; naive_solver.
  - rewrite IH. naive_solver.
Qed.

(** X11.  What the calendar handlers send on.  [calendar_events] of
    [src/app.py] forwards [timeMin], [timeMax] and [maxResults] exactly
    as the request has them, an empty value included, and no other
    argument.  [cal_events] of [src/App.py] always sends
    [singleEvents=true] and [orderBy=startTime], forwards [timeMin] and
    [timeMax] when they are not empty, and sends [maxResults] with the
    default 10, unless the request gives it empty: then it sends none. *)
Theorem X11_calendar_query_parameters :
  (∀ CLIENT_ID CLIENT_SECRET API_KEY int_of_str py_repr net req hdrs w w1,
     key_accepted API_KEY req = true →
     App2._google_headers CLIENT_ID CLIENT_SECRET int_of_str py_repr net w
       = (Ok (Some hdrs), w1) →
     ∃ params,
       App2.calendar_events CLIENT_ID CLIENT_SECRET API_KEY int_of_str py_repr net req w
       = (r ← requests_get net
                "https://www.googleapis.com/calendar/v3/calendars/primary/events"
                hdrs params;
          App2.relay r) w1
       ∧ ∀ k v, In (k, v) params
                ↔ In k ["timeMin"; "timeMax"; "maxResults"] ∧ args req !! k = Some v)
  ∧ (∀ CLIENT_ID CLIENT_SECRET API_KEY py_repr net req token w w1,
       App1.require_api_key API_KEY req = true →
       App1.get_access_token CLIENT_ID CLIENT_SECRET net w = (Ok token, w1) →
       truthy token = true →
       ∃ params,
         App1.cal_events CLIENT_ID CLIENT_SECRET API_KEY py_repr net req w
         = (r ← requests_get net
                  "https://www.googleapis.com/calendar/v3/calendars/primary/events"
                  (App1.bearer py_repr token) params;
            mret (App1.relay r)) w1
         ∧ ∀ k v, In (k, v) params
                  ↔ v ≠ ""
                    ∧ ((k = "singleEvents" ∧ v = "true")
                       ∨ (k = "orderBy" ∧ v = "startTime")
                       ∨ (k = "timeMin" ∧ args req !! "timeMin" = Some v)
                       ∨ (k = "timeMax" ∧ args req !! "timeMax" = Some v)
                       ∨ (k = "maxResults" ∧ args_get req "maxResults" "10" = v))).
Proof.
  split.
  - intros * Hk Hh. eexists. split.
    + unfold App2.calendar_events. rewrite require_api_key2_accepted by done.
      unfold mbind at 1, M_bind at 1. rewrite Hh. reflexivity.
    + intros k v. rewrite !forward_arg_in. simpl. naive_solver.
  - intros * Hk Hg Ht.
    exists (App1.truthy_params
              [("singleEvents", Some "true");
               ("orderBy", Some "startTime");
               ("timeMin", args req !! "timeMin");
               ("timeMax", args req !! "timeMax");
               ("maxResults", Some (args_get req "maxResults" "10"))]).
    split.
    + unfold App1.cal_events. rewrite Hk. cbn [negb].
      unfold mbind at 1, M_bind at 1. rewrite Hg, Ht. reflexivity.
    + intros k v. rewrite truthy_params_in. simpl. split.
      * intros [H Hv]. split; [done|].
        repeat (destruct H as [H|H]; [injection H as <- H; subst; auto 10|]).
        destruct H.
      * intros [Hv H]. split; [|done].
        destruct H as [[-> ->]|[[-> ->]|[[-> <-]|[[-> <-]|[-> ->]]]]]; auto 10.
Qed.

Lemma X11_calendar_query_parameters_witness :
  (∃ params,
     App2.calendar_events "" "" "k3y" no_int no_repr unreachable calendar_request
       (world_with (Stored fresh_record))
     = (r ← requests_get unreachable
              "https://www.googleapis.com/calendar/v3/calendars/primary/events"
              [("Authorization", "Bearer at0")] params;
        App2.relay r) (world_with (Stored fresh_record))
     ∧ ∀ k v, In (k, v) params
              ↔ In k ["timeMin"; "timeMax"; "maxResults"]
                ∧ args calendar_request !! k = Some v)
  ∧ (∃ params,
       App1.cal_events None None (Some "k3y") no_repr unreachable calendar_request
         (world_with (Stored fresh_record))
       = (r ← requests_get unreachable
                "https://www.googleapis.com/calendar/v3/calendars/primary/events"
                (App1.bearer no_repr (JStr "at0")) params;
          mret (App1.relay r)) (world_with (Stored fresh_record))
       ∧ ∀ k v, In (k, v) params
                ↔ v ≠ ""
                  ∧ ((k = "singleEvents" ∧ v = "true")
                     ∨ (k = "orderBy" ∧ v = "startTime")
                     ∨ (k = "timeMin" ∧ args calendar_request !! "timeMin" = Some v)
                     ∨ (k = "timeMax" ∧ args calendar_request !! "timeMax" = Some v)
                     ∨ (k = "maxResults"
                        ∧ args_get calendar_request "maxResults" "10" = v))).
Proof.
  destruct X11_calendar_query_parameters as (H2 & H1).
  split.
  - apply (H2 "" "" "k3y" no_int no_repr unreachable calendar_request
             [("Authorization", "Bearer at0")] (world_with (Stored fresh_record))
             (world_with (Stored fresh_record)));
      reflexivity.
  - apply (H1 None None (Some "k3y") no_repr unreachable calendar_request (JStr "at0")
             (world_with (Stored fresh_record)) (world_with (Stored fresh_record)));
      reflexivity.
Defined.

(** ** The header lookup [_hdr] *)

Section Hdr_facts.
Variable str_lower : string → string.

Lemma hdr_loop_skips l name fb rest :
  Forall (other_header str_lower name) l →
  App2._hdr_loop str_lower (l ++ rest) name fb = App2._hdr_loop str_lower rest name fb.
Proof.
  induction 1 as [|h l (n & Hn & Hne) _ IH]; [reflexivity|].
  simpl. destruct h as [| | | | |m]; try discriminate. simpl in Hn.
  destruct (member "name" m) as [[]|]; simplify_eq/=;
    (rewrite (proj2 (String.eqb_neq _ _)) by done; apply IH).
Qed.

(** X12.  What [_hdr] of [src/app.py] gives.  Falsy headers give the
    default.  In a list, the first entry whose name equals [name] up to
    [str.lower] decides: its [value], or the default when it has none;
    what follows it is not looked at, well formed or not.  A list of
    well-formed entries without such a name gives the default.  An entry
    that is no object, or whose name is no string, before any match ends
    the call in an exception, as do headers that are truthy and no list.
    Two names equal up to [str.lower] give the same result. *)
Theorem X12_hdr_first_match_decides :
  (∀ headers name fb,
     truthy headers = false → App2._hdr str_lower headers name fb = Some fb)
  ∧ (∀ l h rest n name fb,
       Forall (other_header str_lower name) l →
       header_name h = Some n → str_lower n = str_lower name →
       App2._hdr str_lower (JArr (l ++ h :: rest)) name fb
       = Some (default fb (header_value h)))
  ∧ (∀ l name fb,
       Forall (other_header str_lower name) l →
       App2._hdr str_lower (JArr l) name fb = Some fb)
  ∧ (∀ l h rest name fb,
       Forall (other_header str_lower name) l →
       header_name h = None →
       App2._hdr str_lower (JArr (l ++ h :: rest)) name fb = None)
  ∧ (∀ headers name fb,
       truthy headers = true → (∀ l, headers ≠ JArr l) →
       App2._hdr str_lower headers name fb = None)
  ∧ (∀ headers name name' fb,
       str_lower name = str_lower name' →
       App2._hdr str_lower headers name fb = App2._hdr str_lower headers name' fb).
Proof.
  split; [|split; [|split; [|split; [|split]]]].
  - intros headers name fb H. destruct headers as [| | | |l|]; simpl in *; try done;
      try (by rewrite H).
    by destruct l.
  - intros * Hl Hn He. simpl. rewrite hdr_loop_skips by done.
    destruct h as [| | | | |m]; try discriminate. simpl in *.
    destruct (member "name" m) as [[]|]; simplify_eq/=; rewrite He, String.eqb_refl; done.
  - intros * Hl. simpl. rewrite <- (app_nil_r l). by rewrite hdr_loop_skips.
  - intros * Hl Hn. simpl. rewrite hdr_loop_skips by done.
    destruct h as [| | | | |m]; try done. simpl in *.
    by destruct (member "name" m) as [[]|].
  - intros headers name fb H Hl. destruct headers as [| | | |l|]; simpl in *;
      try done; try (by rewrite H).
    by destruct (Hl l).
  - intros headers * He. destruct headers as [| | | |l|]; try done. simpl.
    induction l as [|[| | | | |m] l IH]; simpl; try done.
    destruct (default (JStr "") (member "name" m)); try done.
    by rewrite He, IH.
Qed.
End Hdr_facts.

Lemma X12_hdr_first_match_decides_witness :
  App2._hdr lower_ascii JNull "from" (JStr "") = Some (JStr "")
  ∧ App2._hdr lower_ascii mail_headers "from" (JStr "") = Some (JStr "a@b.c")
  ∧ App2._hdr lower_ascii (JArr [JObj [("name", JStr "To")]]) "From" (JStr "")
    = Some (JStr "")
  ∧ App2._hdr lower_ascii mail_headers "Date" (JStr "") = None
  ∧ App2._hdr lower_ascii (JStr "From: a@b.c") "From" (JStr "") = None
  ∧ App2._hdr lower_ascii mail_headers "FROM" (JStr "")
    = App2._hdr lower_ascii mail_headers "from" (JStr "").
Proof.
  destruct (X12_hdr_first_match_decides lower_ascii) as (H1 & H2 & H3 & H4 & H5 & H6).
  split; [|split; [|split; [|split; [|split]]]].
  - apply H1. reflexivity.
  - apply (H2 [JObj [("name", JStr "Subject"); ("value", JStr "Hi")];
               JObj [("value", JStr "nameless")]]
              (JObj [("name", JStr "FROM"); ("value", JStr "a@b.c")])
              [JInt 3; JObj [("name", JStr "From"); ("value", JStr "second")]]
              "FROM" "from" (JStr "")).
    + repeat constructor; eexists; (split; [reflexivity|vm_compute; discriminate]).
    + reflexivity.
    + reflexivity.
  - apply (H3 [JObj [("name", JStr "To")]]).
    repeat constructor; eexists; (split; [reflexivity|vm_compute; discriminate]).
  - apply (H4 [JObj [("name", JStr "Subject"); ("value", JStr "Hi")];
               JObj [("value", JStr "nameless")];
               JObj [("name", JStr "FROM"); ("value", JStr "a@b.c")]]
              (JInt 3)
              [JObj [("name", JStr "From"); ("value", JStr "second")]]
              "Date" (JStr "")).
    + repeat constructor; eexists; (split; [reflexivity|vm_compute; discriminate]).
    + reflexivity.
  - apply H5; [reflexivity|discriminate].
  - apply H6. reflexivity.
Defined.

(** ** The mail that [gmail_send] posts *)

Lemma b64_index_char n : (n < 64)%N → b64_index (b64_char n) = Some n.
Proof.
  intros H.
  assert (In n (map N.of_nat (seq 0 64))) as Hin.
  { apply in_map_iff. exists (N.to_nat n). split; [lia|]. apply in_seq. lia. }
  clear H. revert n Hin. apply List.Forall_forall.
  repeat constructor.
Qed.

(** Induction on a text by groups of three bytes, as the encoder reads
    it. *)
Lemma string_ind3 (P : string → Prop) :
  P "" → (∀ a, P (String a "")) → (∀ a b, P (String a (String b ""))) →
  (∀ a b c rest, P rest → P (String a (String b (String c rest)))) →
  ∀ s, P s.
Proof.
  intros H0 H1 H2 H3 s.
  enough (P s ∧ (∀ a, P (String a s)) ∧ ∀ a b, P (String a (String b s))) by tauto.
  induction s as [|c s (IH0 & IH1 & IH2)]; [auto|].
  split; [apply IH1|]. split; [intros; apply IH2|]. intros a b. apply H3, IH0.
Qed.

#[local] Ltac Zify.zify_post_hook ::= Z.to_euclidean_division_equations.

Lemma b64_round_trip s : urlsafe_b64decode (urlsafe_b64encode s) = Some s.
Proof.
  induction s as [|a|a b|a b c rest IH] using string_ind3.
  - reflexivity.
  - pose proof (N_ascii_bounded a) as Ha.
    cbn [urlsafe_b64encode urlsafe_b64decode].
    rewrite !b64_index_char by lia. cbn.
    f_equal. f_equal.
    rewrite <- (ascii_N_embedding a) at 3. f_equal. lia.
  - pose proof (N_ascii_bounded a) as Ha. pose proof (N_ascii_bounded b) as Hb.
    cbn [urlsafe_b64encode urlsafe_b64decode].
    rewrite !b64_index_char by lia. cbn.
    f_equal. f_equal; [|f_equal].
    + rewrite <- (ascii_N_embedding a) at 3. f_equal. lia.
    + rewrite <- (ascii_N_embedding b) at 3. f_equal. lia.
  - pose proof (N_ascii_bounded a) as Ha. pose proof (N_ascii_bounded b) as Hb.
    pose proof (N_ascii_bounded c) as Hc.
    cbn [urlsafe_b64encode urlsafe_b64decode].
    rewrite !b64_index_char by lia. rewrite IH. cbn [option_map].
    f_equal. f_equal; [|f_equal; [|f_equal]].
    + rewrite <- (ascii_N_embedding a) at 3. f_equal. lia.
    + rewrite <- (ascii_N_embedding b) at 3. f_equal. lia.
    + rewrite <- (ascii_N_embedding c) at 3. f_equal. lia.
Qed.

(** X13.  What [gmail_send] of [src/app.py] posts.  A request with the
    right key, a usable credential and a truthy [to] makes one call: a
    POST to the send endpoint of Gmail, with the headers of
    [_google_headers] and the JSON content type, whose body has the one
    field [raw].  That field is URL-safe base64 with padding, and it
    decodes to the text of the mail exactly: the [To] and [Subject] lines,
    the content type line, an empty line and the body, each ended by a
    line end. *)
Theorem X13_gmail_send_posts_the_encoded_mail
    CLIENT_ID CLIENT_SECRET API_KEY int_of_str py_repr net data req hdrs w w1 :
  key_accepted API_KEY req = true →
  App2._google_headers CLIENT_ID CLIENT_SECRET int_of_str py_repr net w
    = (Ok (Some hdrs), w1) →
  truthy (dict_get (default ∅ data) "to" JNull) = true →
  ∃ raw,
    App2.gmail_send CLIENT_ID CLIENT_SECRET API_KEY int_of_str py_repr net data req w
    = (r ← requests_post_json net
             "https://gmail.googleapis.com/gmail/v1/users/me/messages/send"
             (with_header hdrs "Content-Type" "application/json")
             [("raw", JStr raw)];
       App2.relay r) w1
    ∧ urlsafe_b64decode raw
      = Some ("To: " ++ py_str py_repr (dict_get (default ∅ data) "to" JNull) ++ CRLF ++
              "Subject: "
                ++ py_str py_repr (dict_get (default ∅ data) "subject" (JStr "")) ++ CRLF ++
              "Content-Type: text/plain; charset=UTF-8" ++ CRLF ++
              CRLF ++
              py_str py_repr (dict_get (default ∅ data) "body" (JStr "")) ++ CRLF).
Proof.
  intros Hk Hh Ht. eexists. split.
  - unfold App2.gmail_send. rewrite require_api_key2_accepted by done.
    unfold mbind at 1, M_bind at 1. rewrite Hh. cbn zeta. rewrite Ht. reflexivity.
  - apply b64_round_trip.
Qed.

Lemma X13_gmail_send_posts_the_encoded_mail_witness :
  ∃ raw,
    App2.gmail_send "" "" "k3y" no_int no_repr unreachable (Some mail_data)
      (mk_flask_request {["x-api-key" := "k3y"]} ∅) (world_with (Stored fresh_record))
    = (r ← requests_post_json unreachable
             "https://gmail.googleapis.com/gmail/v1/users/me/messages/send"
             [("Authorization", "Bearer at0"); ("Content-Type", "application/json")]
             [("raw", JStr raw)];
       App2.relay r) (world_with (Stored fresh_record))
    ∧ urlsafe_b64decode raw
      = Some ("To: a@b.c" ++ CRLF ++ "Subject: Hi" ++ CRLF ++
              "Content-Type: text/plain; charset=UTF-8" ++ CRLF ++ CRLF ++
              "see you" ++ CRLF).
Proof.
  apply (X13_gmail_send_posts_the_encoded_mail "" "" "k3y" no_int no_repr unreachable
           (Some mail_data) (mk_flask_request {["x-api-key" := "k3y"]} ∅)
           [("Authorization", "Bearer at0")]
           (world_with (Stored fresh_record)) (world_with (Stored fresh_record)));
    reflexivity.
Defined.
